(** * A2A task lifecycle engine: task store and task manager

    Shallow embedding of [src/a2a/models], [src/a2a/exceptions.py],
    [src/a2a/server/task_store.py] and [src/a2a/server/task_manager.py],
    with the exception mapping and the task routes for create, send and
    cancel of [src/a2a/integrations/fastapi.py].

    Python objects are mutable and shared: [InMemoryTaskStore._tasks] maps an
    id to a *reference* to a [Task] object, and the task manager mutates the
    very object the store holds.  The embedding therefore keeps a heap of
    [Task] objects ([objs], addressed by position) next to the dictionary
    [_tasks] of references, and every engine operation is a computation in a
    state-and-exception monad over that world. *)

From Stdlib Require Import ZArith String List Lia.
From stdpp Require Import base option list strings gmap.

Local Open Scope string_scope.
Local Open Scope list_scope.
Local Open Scope Z_scope.
Local Open Scope stdpp_scope.

(** ** Data model ([models/message.py], [models/task.py]) *)

(** [Dict[str, Any]]: the engine never looks inside, values are kept in
    serialised form. *)
Definition JsonDict := list (string * string).

Inductive MessageRole := USER | AGENT.

Record FileContent := {
  fc_name : option string;
  fc_mime_type : option string;
  fc_bytes : option string;
  fc_uri : option string
}.

Inductive Part :=
| TextPart (text : string) (metadata : option JsonDict)
| FilePart (file : FileContent) (metadata : option JsonDict)
| DataPart (data : JsonDict) (metadata : option JsonDict).

Record Message := {
  role : MessageRole;
  parts : list Part;
  message_id : option string;
  context_id : option string;
  m_metadata : option JsonDict
}.

Inductive TaskState :=
| SUBMITTED | WORKING | INPUT_REQUIRED | COMPLETED | CANCELED | FAILED | UNKNOWN.

(** [datetime] values are abstracted to integers. *)
Record TaskStatus := {
  state : TaskState;
  message : option Message;
  timestamp : Z
}.

Record Artifact := {
  a_name : option string;
  a_description : option string;
  a_parts : list Part;
  a_index : Z;
  a_append : option bool;
  a_last_chunk : option bool;
  a_metadata : option JsonDict
}.

Record Task := {
  task_id : string;
  session_id : option string;
  status : TaskStatus;
  artifacts : option (list Artifact);
  history : option (list Message);
  metadata : option JsonDict
}.

Record TaskSendParams := {
  sp_session_id : option string;
  sp_message : Message;
  sp_push_notification : option JsonDict
}.

Record TaskQueryParams := {
  q_id : string;
  history_length : option Z;
  q_metadata : option JsonDict
}.

Record TaskStatusUpdateEvent := {
  ev_id : string;
  ev_status : TaskStatus;
  final : bool;
  ev_metadata : option JsonDict
}.

(** What the streaming generators yield: [{"type": ..., "data": ...}], the
    data being a [model_dump()] snapshot of the event. *)
Record StreamItem := {
  type : string;
  data : TaskStatusUpdateEvent
}.

(** Field assignment on a [Task] object. *)
Definition with_status (s : TaskStatus) (t : Task) : Task :=
  {| task_id := task_id t; session_id := session_id t; status := s;
     artifacts := artifacts t; history := history t; metadata := metadata t |}.

Definition with_history (h : option (list Message)) (t : Task) : Task :=
  {| task_id := task_id t; session_id := session_id t; status := status t;
     artifacts := artifacts t; history := h; metadata := metadata t |}.

(** [state in [COMPLETED, FAILED, CANCELED]] *)
Definition is_terminal (s : TaskState) : bool :=
  match s with
  | COMPLETED | FAILED | CANCELED => true
  | _ => false
  end.

(** Python's [l[start:]] for an integer [start]. *)
Definition slice_from {A} (start : Z) (l : list A) : list A :=
  let n := Z.of_nat (length l) in
  let s := if start <? 0 then Z.max (start + n) 0 else Z.min start n in
  drop (Z.to_nat s) l.

(** ** Exceptions ([exceptions.py]) *)

Inductive Exn :=
| ValueError (msg : string)
| AttributeError (msg : string)
| TaskNotFoundException (tid : string)
| TaskNotCancelableException (tid : string)
| InternalErrorException (msg : string)
| Exception (msg : string).

(** [str(e)]: the message handed to [Exception.__init__]. *)
Definition str (e : Exn) : string :=
  match e with
  | ValueError m | AttributeError m | InternalErrorException m | Exception m => m
  | TaskNotFoundException tid => "Task not found: " +:+ tid
  | TaskNotCancelableException tid => "Task cannot be canceled: " +:+ tid
  end.

(** [e.code] of the [A2AException] subclasses. *)
Definition code (e : Exn) : option Z :=
  match e with
  | TaskNotFoundException _ => Some (-32001)
  | TaskNotCancelableException _ => Some (-32002)
  | InternalErrorException _ => Some (-32603)
  | _ => None
  end.

(** ** The world: heap, store dictionary, clock, id source, observation log *)

(** A reference to a [Task] object is its position in the heap. *)
Abbreviation ref := nat (only parsing).

Inductive StoreOp := CREATE | UPDATE.

(** What an outside observer can see of a run, in order: a write to the
    store (with the contents of the written object at that moment), a call
    of the message handler, an item yielded by a generator. *)
Inductive Action :=
| Persisted (op : StoreOp) (t : Task)
| Invoked (m : Message)
| Emitted (e : StreamItem).

(** [objs] is the heap of [Task] objects, [_tasks] the dictionary of the
    in-memory store, [clock_reads] and [uuid_draws] count the uses of the
    two external sources, and [trace] is the log of observations, which no
    operation ever reads. *)
Record World := {
  objs : list Task;
  _tasks : gmap string ref;
  clock_reads : nat;
  uuid_draws : nat;
  trace : list Action
}.

(** [datetime.utcnow()] and [uuid.uuid4()] are external: the n-th read of
    the clock and the n-th drawn identifier are given by the environment. *)
Record Env := {
  utcnow : nat -> Z;
  uuid4 : nat -> string
}.

(** A callback is external code: it is modelled by what it returns or
    raises on its argument, and takes no part in the store or the heap. *)
Inductive Outcome (A : Type) :=
| Returns (a : A)
| Raises (e : Exn).
Arguments Returns {A} a.
Arguments Raises {A} e.

(** A computation ends by returning, by raising, or (in the model only) by
    dereferencing a position that holds no object, which no Python program
    can do. *)
Inductive Result (A : Type) :=
| Ok (a : A)
| Raise (e : Exn)
| Fault.
Arguments Ok {A} a.
Arguments Raise {A} e.
Arguments Fault {A}.

Definition M (A : Type) : Type := World -> Result A * World.

Definition ret {A} (a : A) : M A := fun w => (Ok a, w).

Definition raise {A} (e : Exn) : M A := fun w => (Raise e, w).

Definition bind {A B} (m : M A) (k : A -> M B) : M B :=
  fun w =>
    match m w with
    | (Ok a, w1) => k a w1
    | (Raise e, w1) => (Raise e, w1)
    | (Fault, w1) => (Fault, w1)
    end.

(** [try: body  except Exception as e: handler e].  Every [Exn] is an
    [Exception]; a [Fault] is not an exception and is not caught. *)
Definition try_except {A} (body : M A) (handler : Exn -> M A) : M A :=
  fun w =>
    match body w with
    | (Raise e, w1) => handler e w1
    | r => r
    end.

Notation "x <- m ;; k" := (bind m (fun x => k))
  (at level 100, m at next level, right associativity).
Notation "m ;;; k" := (bind m (fun _ => k))
  (at level 100, right associativity).

Definition set_objs (o : list Task) (w : World) : World :=
  {| objs := o; _tasks := _tasks w; clock_reads := clock_reads w;
     uuid_draws := uuid_draws w; trace := trace w |}.

Definition set_tasks (d : gmap string ref) (w : World) : World :=
  {| objs := objs w; _tasks := d; clock_reads := clock_reads w;
     uuid_draws := uuid_draws w; trace := trace w |}.

Definition log (a : Action) : M unit :=
  fun w =>
    (Ok tt, {| objs := objs w; _tasks := _tasks w; clock_reads := clock_reads w;
               uuid_draws := uuid_draws w; trace := trace w ++ [a] |}).

Definition now (env : Env) : M Z :=
  fun w =>
    (Ok (utcnow env (clock_reads w)),
     {| objs := objs w; _tasks := _tasks w; clock_reads := S (clock_reads w);
        uuid_draws := uuid_draws w; trace := trace w |}).

Definition new_uuid (env : Env) : M string :=
  fun w =>
    (Ok (uuid4 env (uuid_draws w)),
     {| objs := objs w; _tasks := _tasks w; clock_reads := clock_reads w;
        uuid_draws := S (uuid_draws w); trace := trace w |}).

(** Object construction. *)
Definition alloc (t : Task) : M ref :=
  fun w => (Ok (length (objs w)), set_objs (objs w ++ [t]) w).

Definition deref (r : ref) : M Task :=
  fun w =>
    match objs w !! r with
    | Some t => (Ok t, w)
    | None => (Fault, w)
    end.

(** In-place update of the object behind [r]. *)
Definition assign (r : ref) (f : Task -> Task) : M unit :=
  fun w =>
    match objs w !! r with
    | Some t => (Ok tt, set_objs (<[r := f t]> (objs w)) w)
    | None => (Fault, w)
    end.

(** [await cb(x)] *)
Definition call {A B} (cb : A -> Outcome B) (x : A) : M B :=
  fun w =>
    match cb x with
    | Returns b => (Ok b, w)
    | Raises e => (Raise e, w)
    end.

(** ** [InMemoryTaskStore] ([server/task_store.py]) *)

Module InMemoryTaskStore.

(** The dictionary is keyed by [task.id] as read from the object when it is
    filed; it holds the reference, not a copy. *)
Definition create_task (task : ref) : M ref :=
  t <- deref task ;;
  fun w =>
    match _tasks w !! task_id t with
    | Some _ =>
        (Raise (ValueError ("Task with ID " +:+ task_id t +:+ " already exists")), w)
    | None =>
        (log (Persisted CREATE t) ;;; ret task)
          (set_tasks (<[task_id t := task]> (_tasks w)) w)
    end.

(** Returns the stored reference itself. *)
Definition get_task (tid : string) : M ref :=
  fun w =>
    match _tasks w !! tid with
    | None => (Raise (TaskNotFoundException tid), w)
    | Some r => (Ok r, w)
    end.

Definition update_task (task : ref) : M ref :=
  t <- deref task ;;
  fun w =>
    match _tasks w !! task_id t with
    | None => (Raise (TaskNotFoundException (task_id t)), w)
    | Some _ =>
        (log (Persisted UPDATE t) ;;; ret task)
          (set_tasks (<[task_id t := task]> (_tasks w)) w)
    end.

Definition delete_task (tid : string) : M bool :=
  fun w =>
    match _tasks w !! tid with
    | None => (Ok false, w)
    | Some _ => (Ok true, set_tasks (delete tid (_tasks w)) w)
    end.

Definition task_exists (tid : string) : M bool :=
  fun w => (Ok (bool_decide (is_Some (_tasks w !! tid))), w).

(** [[task for task in tasks if task.session_id == session_id]] *)
Fixpoint select_session (s : string) (tasks : list ref) : M (list ref) :=
  match tasks with
  | [] => ret []
  | task :: rest =>
      t <- deref task ;;
      sel <- select_session s rest ;;
      ret (if decide (session_id t = Some s) then task :: sel else sel)
  end.

(** [list(self._tasks.values())], filtered when a session id is given.  A
    Python dictionary lists its values in the order the keys were first
    inserted; the dictionary of the model keeps no such order, so the list
    is modelled up to the order of its entries, and the statements about it
    speak of its members and its length only. *)
Definition list_tasks (session : option string) : M (list ref) :=
  fun w =>
    let tasks := (map_to_list (_tasks w)).*2 in
    match session with
    | Some s => select_session s tasks w
    | None => (Ok tasks, w)
    end.

(** [self._tasks.clear()] *)
Definition clear : M unit :=
  fun w => (Ok tt, set_tasks ∅ w).

(** [len(self._tasks)] *)
Definition size (w : World) : nat := stdpp.base.size (_tasks w).

End InMemoryTaskStore.

(** ** Agent card ([models/agent_card.py]) *)

Record AgentCapabilities := {
  streaming : bool;
  push_notifications : bool;
  state_transition_history : bool
}.

Record AgentProvider := {
  organization : string;
  provider_url : option string
}.

Record AgentAuthentication := {
  schemes : list string;
  credentials : option string
}.

Record AgentSkill := {
  skill_id : string;
  skill_name : string;
  skill_description : option string;
  tags : option (list string);
  examples : option (list string);
  input_modes : option (list string);
  output_modes : option (list string)
}.

Record AgentCard := {
  card_name : string;
  card_description : option string;
  card_url : string;
  provider : option AgentProvider;
  version : string;
  documentation_url : option string;
  capabilities : AgentCapabilities;
  authentication : option AgentAuthentication;
  default_input_modes : list string;
  default_output_modes : list string;
  skills : list AgentSkill
}.

(** ** [TaskManager] ([server/task_manager.py]) *)

Module TaskManager.

(** The callbacks of a manager; all start out as [None]. *)
Record t := {
  on_message_received : option (Message -> Outcome Message);
  on_task_created : option (Task -> Outcome unit);
  on_task_updated : option (Task -> Outcome unit);
  on_task_canceled : option (Task -> Outcome unit)
}.

(** [if self.hook: await self.hook(task)] *)
Definition notify (hook : option (Task -> Outcome unit)) (task : ref) : M unit :=
  match hook with
  | Some f => tk <- deref task ;; call f tk
  | None => ret tt
  end.

(** [await self.on_message_received(message)] *)
Definition invoke (h : Message -> Outcome Message) (m : Message) : M Message :=
  log (Invoked m) ;;; call h m.

Definition set_status (task : ref) (s : TaskStatus) : M unit :=
  assign task (with_status s).

(** [task.history.append(m)] *)
Definition history_append (task : ref) (m : Message) : M unit :=
  tk <- deref task ;;
  match history tk with
  | Some l => assign task (with_history (Some (l ++ [m])))
  | None => raise (AttributeError "'NoneType' object has no attribute 'append'")
  end.

(** [if not task.history: task.history = []] *)
Definition ensure_history (task : ref) : M unit :=
  tk <- deref task ;;
  match history tk with
  | None | Some [] => assign task (with_history (Some []))
  | Some _ => ret tt
  end.

Definition status_event (tid : string) (s : TaskStatus) (fin : bool) : StreamItem :=
  {| type := "status_update";
     data := {| ev_id := tid; ev_status := s; final := fin; ev_metadata := None |} |}.

(** [yield item] *)
Definition yield_ (item : StreamItem) : M unit := log (Emitted item).

Definition process_message (self : t) (m : Message) : M Message :=
  match on_message_received self with
  | None => raise (InternalErrorException "No message handler registered")
  | Some h =>
      try_except (invoke h m)
        (fun e => raise (InternalErrorException ("Error processing message: " +:+ str e)))
  end.

Definition create_task (env : Env) (self : t) (params : TaskSendParams) : M ref :=
  tid <- new_uuid env ;;
  ts <- now env ;;
  task <- alloc {| task_id := tid;
                   session_id := sp_session_id params;
                   status := {| state := SUBMITTED; message := None; timestamp := ts |};
                   artifacts := None;
                   history := Some [sp_message params];
                   metadata := Some [] |} ;;
  InMemoryTaskStore.create_task task ;;;
  notify (on_task_created self) task ;;;
  try_except
    (ts <- now env ;;
     set_status task {| state := WORKING; message := None; timestamp := ts |} ;;;
     InMemoryTaskStore.update_task task ;;;
     match on_message_received self with
     | Some h =>
         response <- invoke h (sp_message params) ;;
         history_append task response ;;;
         ts <- now env ;;
         set_status task {| state := COMPLETED; message := Some response; timestamp := ts |} ;;;
         InMemoryTaskStore.update_task task ;;;
         notify (on_task_updated self) task
     | None => ret tt
     end)
    (fun e =>
       ts <- now env ;;
       set_status task {| state := FAILED; message := None; timestamp := ts |} ;;;
       InMemoryTaskStore.update_task task ;;;
       raise (InternalErrorException ("Error processing task: " +:+ str e))) ;;;
  ret task.

Definition get_task (params : TaskQueryParams) : M ref :=
  task <- InMemoryTaskStore.get_task (q_id params) ;;
  tk <- deref task ;;
  match history_length params, history tk with
  | Some n, Some (m :: l) =>
      assign task (with_history (Some (slice_from (- n) (m :: l))))
  | _, _ => ret tt
  end ;;;
  ret task.

Definition send_task_message (env : Env) (self : t) (tid : string)
    (params : TaskSendParams) : M ref :=
  task <- InMemoryTaskStore.get_task tid ;;
  ensure_history task ;;;
  history_append task (sp_message params) ;;;
  ts <- now env ;;
  set_status task {| state := WORKING; message := None; timestamp := ts |} ;;;
  InMemoryTaskStore.update_task task ;;;
  try_except
    (match on_message_received self with
     | Some h =>
         response <- invoke h (sp_message params) ;;
         history_append task response ;;;
         ts <- now env ;;
         set_status task {| state := COMPLETED; message := Some response; timestamp := ts |} ;;;
         InMemoryTaskStore.update_task task ;;;
         notify (on_task_updated self) task
     | None => ret tt
     end)
    (fun e =>
       ts <- now env ;;
       set_status task {| state := FAILED; message := None; timestamp := ts |} ;;;
       InMemoryTaskStore.update_task task ;;;
       raise (InternalErrorException ("Error processing task message: " +:+ str e))) ;;;
  ret task.

(** The generator run to exhaustion: the items it yields are the [Emitted]
    entries it adds to the log, and the result tells whether the
    iteration ended normally or by an exception. *)
Definition send_task_message_stream (env : Env) (self : t) (tid : string)
    (params : TaskSendParams) : M unit :=
  task <- InMemoryTaskStore.get_task tid ;;
  ensure_history task ;;;
  history_append task (sp_message params) ;;;
  ts <- now env ;;
  set_status task {| state := WORKING; message := None; timestamp := ts |} ;;;
  InMemoryTaskStore.update_task task ;;;
  tk <- deref task ;;
  yield_ (status_event tid (status tk) false) ;;;
  try_except
    (match on_message_received self with
     | Some h =>
         response <- invoke h (sp_message params) ;;
         history_append task response ;;;
         ts <- now env ;;
         set_status task {| state := COMPLETED; message := Some response; timestamp := ts |} ;;;
         InMemoryTaskStore.update_task task ;;;
         tk <- deref task ;;
         yield_ (status_event tid (status tk) true) ;;;
         notify (on_task_updated self) task
     | None => ret tt
     end)
    (fun e =>
       ts <- now env ;;
       set_status task {| state := FAILED; message := None; timestamp := ts |} ;;;
       InMemoryTaskStore.update_task task ;;;
       tk <- deref task ;;
       yield_ (status_event tid (status tk) true) ;;;
       raise (InternalErrorException ("Error processing task message: " +:+ str e))).

Definition cancel_task (env : Env) (self : t) (tid : string) : M ref :=
  task <- InMemoryTaskStore.get_task tid ;;
  tk <- deref task ;;
  if is_terminal (state (status tk)) then raise (TaskNotCancelableException tid)
  else
    ts <- now env ;;
    set_status task {| state := CANCELED; message := None; timestamp := ts |} ;;;
    InMemoryTaskStore.update_task task ;;;
    notify (on_task_canceled self) task ;;;
    ret task.

Definition resubscribe_task (tid : string) : M unit :=
  task <- InMemoryTaskStore.get_task tid ;;
  tk <- deref task ;;
  yield_ (status_event tid (status tk) (is_terminal (state (status tk)))).

(** [get_agent_card]; the callback [self.on_agent_card_query], which [t]
    does not list, is taken as an argument. *)
Definition get_agent_card (on_agent_card_query : option (string -> Outcome AgentCard))
    (agent_url : string) : M AgentCard :=
  match on_agent_card_query with
  | None => raise (InternalErrorException "No agent card handler registered")
  | Some q =>
      try_except (call q agent_url)
        (fun e => raise (InternalErrorException ("Error getting agent card: " +:+ str e)))
  end.

End TaskManager.

(** ** The other exceptions, and the HTTP side ([exceptions.py],
    [integrations/fastapi.py]) *)

(** Every exception a route can meet: the ones the engine raises, the other
    classes of [exceptions.py] (with the [code] their constructor is given),
    and the three base classes, whose instances carry the code and the
    data they were built with. *)
Inductive PyException :=
| Engine (e : Exn)
| A2AException (msg : string) (c : option Z) (data : option JsonDict)
| A2AClientException (msg : string) (c : option Z) (data : option JsonDict)
| A2AServerException (msg : string) (c : option Z) (data : option JsonDict)
| PushNotificationNotSupportedException
| UnsupportedOperationException (operation : string)
| InvalidRequestException (msg : string)
| MethodNotFoundException (method : string)
| InvalidParamsException (msg : string).

Definition py_str (e : PyException) : string :=
  match e with
  | Engine e => str e
  | A2AException m _ _ | A2AClientException m _ _ | A2AServerException m _ _ => m
  | PushNotificationNotSupportedException => "Push Notification is not supported"
  | UnsupportedOperationException op => "This operation is not supported: " +:+ op
  | InvalidRequestException m | InvalidParamsException m => m
  | MethodNotFoundException m => "Method not found: " +:+ m
  end.

Definition py_code (e : PyException) : option Z :=
  match e with
  | Engine e => code e
  | A2AException _ c _ | A2AClientException _ c _ | A2AServerException _ c _ => c
  | PushNotificationNotSupportedException => Some (-32003)
  | UnsupportedOperationException _ => Some (-32004)
  | InvalidRequestException _ => Some (-32600)
  | MethodNotFoundException _ => Some (-32601)
  | InvalidParamsException _ => Some (-32602)
  end.

(** [isinstance(e, A2AException)] *)
Definition is_a2a (e : PyException) : bool :=
  match e with
  | Engine (ValueError _) | Engine (AttributeError _) | Engine (Exception _) => false
  | _ => true
  end.

Module fastapi.

Record HTTPException := {
  status_code : Z;
  detail : string
}.

(** The [isinstance] chain of [handle_a2a_exception]. *)
Definition handle_a2a_exception (e : PyException) : HTTPException :=
  match e with
  | Engine (TaskNotFoundException _) => {| status_code := 404; detail := py_str e |}
  | Engine (TaskNotCancelableException _) => {| status_code := 400; detail := py_str e |}
  | InvalidRequestException _ => {| status_code := 400; detail := py_str e |}
  | Engine (InternalErrorException _) => {| status_code := 500; detail := py_str e |}
  | _ =>
      if is_a2a e then {| status_code := 500; detail := py_str e |}
      else {| status_code := 500; detail := "Internal server error" |}
  end.

(** What a route answers: the value it returns, or the [HTTPException] it
    raises. *)
Inductive Response (A : Type) :=
| Returned (a : A)
| Refused (e : HTTPException).
Arguments Returned {A} a.
Arguments Refused {A} e.

(** [try: ... return task.model_dump()
     except Exception as e: raise handle_a2a_exception(e)],
    the dump being the contents of the task object at that moment. *)
Definition respond (body : M ref) : M (Response Task) :=
  try_except (task <- body ;; tk <- deref task ;; ret (Returned tk))
    (fun e => ret (Refused (handle_a2a_exception (Engine e)))).

(** [POST {prefix}/tasks] *)
Definition create_task (env : Env) (task_manager : TaskManager.t)
    (params : TaskSendParams) : M (Response Task) :=
  respond (TaskManager.create_task env task_manager params).

(** [POST {prefix}/tasks/{task_id}/send], with its own application of
    [historyLength] to the task the manager returned. *)
Definition send_task_message (env : Env) (task_manager : TaskManager.t)
    (task_id : string) (params : TaskSendParams) (historyLength : option Z)
    : M (Response Task) :=
  respond
    (task <- TaskManager.send_task_message env task_manager task_id params ;;
     tk <- deref task ;;
     match historyLength, history tk with
     | Some n, Some (m :: l) =>
         assign task (with_history (Some (slice_from (- n) (m :: l))))
     | _, _ => ret tt
     end ;;;
     ret task).

(** [POST {prefix}/tasks/{task_id}/cancel] *)
Definition cancel_task (env : Env) (task_manager : TaskManager.t)
    (task_id : string) : M (Response Task) :=
  respond (TaskManager.cancel_task env task_manager task_id).

End fastapi.

(** ** Vocabulary of the statements *)

(** The store holds, under [tid], a reference [r] to the object [tk], and
    that object carries the id it is filed under (which is how
    [create_task] and [update_task] file it). *)
Definition stored (w : World) (tid : string) (r : ref) (tk : Task) : Prop :=
  _tasks w !! tid = Some r ∧ objs w !! r = Some tk ∧ task_id tk = tid.

(** The notification callback, if there is one, returns when called on [tk]. *)
Definition hook_returns (hook : option (Task -> Outcome unit)) (tk : Task) : Prop :=
  match hook with
  | Some f => f tk = Returns tt
  | None => True
  end.

(** The items yielded, in order, among the entries of a log. *)
Fixpoint emitted (l : list Action) : list StreamItem :=
  match l with
  | [] => []
  | Emitted e :: l' => e :: emitted l'
  | _ :: l' => emitted l'
  end.

(** The handler calls among the entries of a log. *)
Fixpoint invocations (l : list Action) : list Message :=
  match l with
  | [] => []
  | Invoked m :: l' => m :: invocations l'
  | _ :: l' => invocations l'
  end.

(** The states written to the store, in order, among the entries of a log. *)
Fixpoint persisted_states (l : list Action) : list TaskState :=
  match l with
  | [] => []
  | Persisted _ tk :: l' => state (status tk) :: persisted_states l'
  | _ :: l' => persisted_states l'
  end.

(** What a run added to the log. *)
Definition new_trace (w w' : World) : list Action :=
  drop (length (trace w)) (trace w').

Definition is_final (e : StreamItem) : bool := final (data e).

(** Exactly one yielded item is final, and it is the last one. *)
Definition one_final_last (evs : list StreamItem) : Prop :=
  length (List.filter is_final evs) = 1%nat ∧ (is_final <$> last evs) = Some true.

(** The last [k] entries of a list. *)
Definition last_n {A} (k : nat) (l : list A) : list A :=
  drop (length l - k) l.

(** Every id of the store leads to an object that carries this id. *)
Definition consistent (w : World) : Prop :=
  ∀ k r, _tasks w !! k = Some r → ∃ tk, objs w !! r = Some tk ∧ task_id tk = k.

(** A notification callback that returns on every task. *)
Definition quiet (hook : option (Task -> Outcome unit)) : Prop :=
  ∀ tk, hook_returns hook tk.

(** The object [tk'] is [tk] with another status and history at most. *)
Definition same_identity (tk tk' : Task) : Prop :=
  task_id tk' = task_id tk ∧ session_id tk' = session_id tk ∧
  artifacts tk' = artifacts tk ∧ metadata tk' = metadata tk.

(** Two worlds differ in the object behind [r] at most (and in the clock
    and the log). *)
Definition only_changes (r : ref) (w w' : World) : Prop :=
  _tasks w' = _tasks w ∧
  uuid_draws w' = uuid_draws w ∧
  length (objs w') = length (objs w) ∧
  ∀ r', r' ≠ r → objs w' !! r' = objs w !! r'.

(** What sending the message of [params] makes of the task [tk]: the same
    task, its history extended by the message and, when the handler
    returns one, by the response. *)
Definition appended (self : TaskManager.t) (params : TaskSendParams) (tk tk' : Task) : Prop :=
  same_identity tk tk' ∧
  history tk' =
    Some (default [] (history tk) ++
          sp_message params ::
          match TaskManager.on_message_received self with
          | Some h => match h (sp_message params) with
                      | Returns resp => [resp]
                      | Raises _ => []
                      end
          | None => []
          end).

(** The exception is of a class with a code of its own, not a direct
    instance of one of the three base classes. *)
Definition own_class (e : PyException) : bool :=
  match e with
  | A2AException _ _ _ | A2AClientException _ _ _ | A2AServerException _ _ _ => false
  | _ => true
  end.

(** ** Task snapshots

    The contents of a task object at the points where the manager writes it
    to the store, as functions of the world [w] the operation started in:
    the n-th [TaskStatus] built by an operation carries the n-th clock
    reading after [clock_reads w]. *)

Definition working (env : Env) (n : nat) : TaskStatus :=
  {| state := WORKING; message := None; timestamp := utcnow env n |}.

Definition completed (env : Env) (n : nat) (resp : Message) : TaskStatus :=
  {| state := COMPLETED; message := Some resp; timestamp := utcnow env n |}.

Definition failed (env : Env) (n : nat) : TaskStatus :=
  {| state := FAILED; message := None; timestamp := utcnow env n |}.

(** [cancel_task]: the task [tk] once CANCELED. *)
Definition canceled (env : Env) (w : World) (tk : Task) : Task :=
  with_status {| state := CANCELED; message := None;
                 timestamp := utcnow env (clock_reads w) |} tk.

(** [send_task_message]: the task [tk] once [m] is appended and the state
    is WORKING. *)
Definition received (env : Env) (w : World) (m : Message) (tk : Task) : Task :=
  with_status (working env (clock_reads w))
    (with_history (Some (default [] (history tk) ++ [m])) tk).

(** ... once the response is appended and the state is COMPLETED. *)
Definition answered (env : Env) (w : World) (m resp : Message) (tk : Task) : Task :=
  with_status (completed env (S (clock_reads w)) resp)
    (with_history (Some ((default [] (history tk) ++ [m]) ++ [resp])) tk).

(** ... set FAILED after the handler raised. *)
Definition broken (env : Env) (w : World) (m : Message) (tk : Task) : Task :=
  with_status (failed env (S (clock_reads w))) (received env w m tk).

(** ... set FAILED after [on_task_updated] raised on the COMPLETED task. *)
Definition soured (env : Env) (w : World) (m resp : Message) (tk : Task) : Task :=
  with_status (failed env (S (S (clock_reads w)))) (answered env w m resp tk).

(** [create_task]: the task as constructed, SUBMITTED. *)
Definition submitted (env : Env) (w : World) (params : TaskSendParams) : Task :=
  {| task_id := uuid4 env (uuid_draws w);
     session_id := sp_session_id params;
     status := {| state := SUBMITTED; message := None;
                  timestamp := utcnow env (clock_reads w) |};
     artifacts := None;
     history := Some [sp_message params];
     metadata := Some [] |}.

(** ... set WORKING. *)
Definition started (env : Env) (w : World) (params : TaskSendParams) : Task :=
  with_status (working env (S (clock_reads w))) (submitted env w params).

(** ... once the response is appended and the state is COMPLETED. *)
Definition finished (env : Env) (w : World) (params : TaskSendParams) (resp : Message) : Task :=
  with_status (completed env (S (S (clock_reads w))) resp)
    (with_history (Some [sp_message params; resp]) (submitted env w params)).

(** ... set FAILED after the handler raised. *)
Definition crashed (env : Env) (w : World) (params : TaskSendParams) : Task :=
  with_status (failed env (S (S (clock_reads w)))) (submitted env w params).

(** ... set FAILED after [on_task_updated] raised on the COMPLETED task. *)
Definition spoiled (env : Env) (w : World) (params : TaskSendParams) (resp : Message) : Task :=
  with_status (failed env (S (S (S (clock_reads w))))) (finished env w params resp).

(** What sending the message of [params] makes of the stored task [tk],
    whatever state it is in. [run] is the result and the final world of the
    operation started in [w], [a] the value it returns when it returns.
    WORKING is the first state written; after that the handler decides:
    - no handler: the operation returns, nothing else is written, the task
      is left WORKING;
    - the handler returns [resp] and [on_task_updated], if set, returns:
      the operation returns, COMPLETED is written, the task is left
      COMPLETED with [resp] as the message of its status;
    - the handler returns and [on_task_updated] raises [e] on the COMPLETED
      task: the operation raises, COMPLETED and then FAILED are written,
      the task is left FAILED;
    - the handler raises [e]: the operation raises, FAILED is written, the
      task is left FAILED. *)
Definition reopened {A} (env : Env) (self : TaskManager.t) (params : TaskSendParams)
    (tid : string) (r : ref) (tk : Task) (a : A) (w : World)
    (run : Result A * World) : Prop :=
  let m := sp_message params in
  let written := persisted_states (new_trace w (snd run)) in
  let left_in (s : TaskState) (msg : option Message) :=
    ∃ tk', stored (snd run) tid r tk' ∧
           state (status tk') = s ∧ message (status tk') = msg in
  let failure (e : Exn) : Result A :=
    Raise (InternalErrorException ("Error processing task message: " +:+ str e)) in
  head written = Some WORKING ∧
  (TaskManager.on_message_received self = None →
     fst run = Ok a ∧ written = [WORKING] ∧ left_in WORKING None) ∧
  (∀ h resp,
     TaskManager.on_message_received self = Some h →
     h m = Returns resp →
     hook_returns (TaskManager.on_task_updated self) (answered env w m resp tk) →
     fst run = Ok a ∧ written = [WORKING; COMPLETED] ∧ left_in COMPLETED (Some resp)) ∧
  (∀ h resp f e,
     TaskManager.on_message_received self = Some h →
     h m = Returns resp →
     TaskManager.on_task_updated self = Some f →
     f (answered env w m resp tk) = Raises e →
     fst run = failure e ∧ written = [WORKING; COMPLETED; FAILED] ∧ left_in FAILED None) ∧
  (∀ h e,
     TaskManager.on_message_received self = Some h →
     h m = Raises e →
     fst run = failure e ∧ written = [WORKING; FAILED] ∧ left_in FAILED None).

(** ** Sample data *)

Definition text_message (r : MessageRole) (s : string) : Message :=
  {| role := r; parts := [TextPart s None]; message_id := None;
     context_id := None; m_metadata := None |}.

Definition send_params (s : string) : TaskSendParams :=
  {| sp_session_id := None; sp_message := text_message USER s;
     sp_push_notification := None |}.

Definition part_text (p : Part) : string :=
  match p with
  | TextPart s _ => s
  | _ => ""
  end.

(** The echo handler of the sample agent: answers ["Echo: " + text]. *)
Definition echo_handler (m : Message) : Outcome Message :=
  Returns (text_message AGENT
             ("Echo: " +:+ match parts m with p :: _ => part_text p | [] => "" end)).

Definition failing_handler (m : Message) : Outcome Message :=
  Raises (Exception "boom").

(** A manager as [TaskManager()] builds it, with [on_message_received] set. *)
Definition manager (h : option (Message -> Outcome Message)) : TaskManager.t :=
  {| TaskManager.on_message_received := h;
     TaskManager.on_task_created := None;
     TaskManager.on_task_updated := None;
     TaskManager.on_task_canceled := None |}.

Definition sample_env : Env :=
  {| utcnow := fun n => Z.of_nat n;
     uuid4 := fun n => match n with
                        | O => "task-0"
                        | S O => "task-1"
                        | _ => "task-n"
                        end |}.

Definition sample_task (tid : string) (s : TaskState) (h : option (list Message)) : Task :=
  {| task_id := tid; session_id := None;
     status := {| state := s; message := None; timestamp := 0 |};
     artifacts := None; history := h; metadata := None |}.

(** A task with two history entries. *)
Definition two_entries : Task :=
  sample_task "t1" COMPLETED
    (Some [text_message USER "first"; text_message AGENT "second"]).

Definition empty_world : World :=
  {| objs := []; _tasks := ∅; clock_reads := 0; uuid_draws := 0; trace := [] |}.

(** A world whose store holds the single task [tk]. *)
Definition world_with (tk : Task) : World :=
  {| objs := [tk]; _tasks := {[ task_id tk := 0%nat ]};
     clock_reads := 0; uuid_draws := 0; trace := [] |}.

Definition query (tid : string) (n : option Z) : TaskQueryParams :=
  {| q_id := tid; history_length := n; q_metadata := None |}.

(** A task of a session. *)
Definition session_task (tid s : string) : Task :=
  {| task_id := tid; session_id := Some s;
     status := {| state := SUBMITTED; message := None; timestamp := 0 |};
     artifacts := None; history := None; metadata := None |}.

(** Three stored tasks, two of them of session "session-1". *)
Definition three_tasks : World :=
  {| objs := [session_task "task-1" "session-1"; session_task "task-2" "session-1";
              session_task "task-3" "session-2"];
     _tasks := {[ "task-1" := 0%nat; "task-2" := 1%nat; "task-3" := 2%nat ]};
     clock_reads := 0; uuid_draws := 0; trace := [] |}.

Definition two_tasks : World :=
  {| objs := [sample_task "t1" WORKING None; sample_task "t2" WORKING None];
     _tasks := {[ "t1" := 0%nat; "t2" := 1%nat ]};
     clock_reads := 0; uuid_draws := 0; trace := [] |}.

(** A notification callback that raises, and managers that have it. *)
Definition failing_hook (tk : Task) : Outcome unit := Raises (Exception "boom").

Definition raising_update_manager : TaskManager.t :=
  {| TaskManager.on_message_received := Some echo_handler;
     TaskManager.on_task_created := None;
     TaskManager.on_task_updated := Some failing_hook;
     TaskManager.on_task_canceled := None |}.

Definition raising_cancel_manager : TaskManager.t :=
  {| TaskManager.on_message_received := Some echo_handler;
     TaskManager.on_task_created := None;
     TaskManager.on_task_updated := None;
     TaskManager.on_task_canceled := Some failing_hook |}.

(** * Properties *)

(** ** Running the primitives *)

Lemma bind_ok {A B} (m : M A) (k : A → M B) (w w1 : World) (a : A) :
  m w = (Ok a, w1) → bind m k w = k a w1.
Proof. intros H. unfold bind. rewrite H. reflexivity. Qed.

Lemma bind_raise {A B} (m : M A) (k : A → M B) (w w1 : World) (e : Exn) :
  m w = (Raise e, w1) → bind m k w = (Raise e, w1).
Proof. intros H. unfold bind. rewrite H. reflexivity. Qed.

Lemma try_ok {A} (m : M A) (hd : Exn → M A) (w w1 : World) (a : A) :
  m w = (Ok a, w1) → try_except m hd w = (Ok a, w1).
Proof. intros H. unfold try_except. rewrite H. reflexivity. Qed.

Lemma try_raise {A} (m : M A) (hd : Exn → M A) (w w1 : World) (e : Exn) :
  m w = (Raise e, w1) → try_except m hd w = hd e w1.
Proof. intros H. unfold try_except. rewrite H. reflexivity. Qed.

Lemma deref_run (w : World) r tk : objs w !! r = Some tk → deref r w = (Ok tk, w).
Proof. intros H. unfold deref. rewrite H. reflexivity. Qed.

Lemma assign_run (w : World) r tk f :
  objs w !! r = Some tk →
  assign r f w = (Ok tt, set_objs (<[r := f tk]> (objs w)) w).
Proof. intros H. unfold assign. rewrite H. reflexivity. Qed.

Lemma set_status_run (w : World) r tk s :
  objs w !! r = Some tk →
  TaskManager.set_status r s w = (Ok tt, set_objs (<[r := with_status s tk]> (objs w)) w).
Proof. apply assign_run. Qed.

Lemma with_history_same (tk : Task) : with_history (history tk) tk = tk.
Proof. destruct tk. reflexivity. Qed.

Lemma set_objs_same (w : World) : set_objs (objs w) w = w.
Proof. destruct w. reflexivity. Qed.

Lemma ensure_history_run (w : World) r tk :
  objs w !! r = Some tk →
  TaskManager.ensure_history r w =
    (Ok tt, set_objs (<[r := with_history (Some (default [] (history tk))) tk]> (objs w)) w).
Proof.
  intros H. unfold TaskManager.ensure_history.
  rewrite (bind_ok _ _ _ _ _ (deref_run _ _ _ H)).
  destruct (history tk) as [[|m l]|] eqn:Hh;
    try (apply assign_run; exact H).
  unfold ret. change (default [] (Some (m :: l))) with (m :: l).
  rewrite <- Hh, with_history_same, (list_insert_id _ _ _ H), set_objs_same.
  reflexivity.
Qed.

Lemma history_append_run (w : World) r tk l m :
  objs w !! r = Some tk → history tk = Some l →
  TaskManager.history_append r m w =
    (Ok tt, set_objs (<[r := with_history (Some (l ++ [m])) tk]> (objs w)) w).
Proof.
  intros H Hh. unfold TaskManager.history_append.
  rewrite (bind_ok _ _ _ _ _ (deref_run _ _ _ H)), Hh.
  apply assign_run, H.
Qed.

Lemma notify_run (w : World) hook r tk :
  objs w !! r = Some tk → hook_returns hook tk →
  TaskManager.notify hook r w = (Ok tt, w).
Proof.
  intros H Hh. unfold TaskManager.notify. destruct hook as [f|]; [|reflexivity].
  rewrite (bind_ok _ _ _ _ _ (deref_run _ _ _ H)).
  unfold call. cbn in Hh. rewrite Hh. reflexivity.
Qed.

Lemma notify_raise (w : World) f r tk e :
  objs w !! r = Some tk → f tk = Raises e →
  TaskManager.notify (Some f) r w = (Raise e, w).
Proof.
  intros H Hf. unfold TaskManager.notify.
  rewrite (bind_ok _ _ _ _ _ (deref_run _ _ _ H)).
  unfold call. rewrite Hf. reflexivity.
Qed.

Lemma hook_cases (hook : option (Task → Outcome unit)) (tk : Task) :
  hook_returns hook tk ∨ ∃ f e, hook = Some f ∧ f tk = Raises e.
Proof.
  destruct hook as [f|]; [|left; exact I].
  destruct (f tk) as [[]|e] eqn:Hf.
  - left. exact Hf.
  - right. exists f, e. split; [reflexivity | exact Hf].
Qed.

Lemma invoke_run (w : World) h m resp :
  h m = Returns resp →
  TaskManager.invoke h m w =
    (Ok resp, {| objs := objs w; _tasks := _tasks w; clock_reads := clock_reads w;
                 uuid_draws := uuid_draws w; trace := trace w ++ [Invoked m] |}).
Proof. intros H. unfold TaskManager.invoke, bind, log, call. rewrite H. reflexivity. Qed.

Lemma invoke_raise (w : World) h m e :
  h m = Raises e →
  TaskManager.invoke h m w =
    (Raise e, {| objs := objs w; _tasks := _tasks w; clock_reads := clock_reads w;
                 uuid_draws := uuid_draws w; trace := trace w ++ [Invoked m] |}).
Proof. intros H. unfold TaskManager.invoke, bind, log, call. rewrite H. reflexivity. Qed.

Lemma store_get_task_run (w : World) tid r :
  _tasks w !! tid = Some r → InMemoryTaskStore.get_task tid w = (Ok r, w).
Proof. intros H. unfold InMemoryTaskStore.get_task. rewrite H. reflexivity. Qed.

Lemma store_create_task_run (w : World) (r : ref) (tk : Task) :
  objs w !! r = Some tk →
  _tasks w !! task_id tk = None →
  InMemoryTaskStore.create_task r w =
    (Ok r, {| objs := objs w; _tasks := <[task_id tk := r]> (_tasks w);
              clock_reads := clock_reads w; uuid_draws := uuid_draws w;
              trace := trace w ++ [Persisted CREATE tk] |}).
Proof.
  intros Ho Hd. unfold InMemoryTaskStore.create_task, bind, deref.
  rewrite Ho, Hd. reflexivity.
Qed.

Lemma update_task_run (w : World) (r : ref) (tk : Task) (r0 : ref) :
  objs w !! r = Some tk →
  _tasks w !! task_id tk = Some r0 →
  InMemoryTaskStore.update_task r w =
    (Ok r, {| objs := objs w; _tasks := <[task_id tk := r]> (_tasks w);
              clock_reads := clock_reads w; uuid_draws := uuid_draws w;
              trace := trace w ++ [Persisted UPDATE tk] |}).
Proof.
  intros Ho Hd. unfold InMemoryTaskStore.update_task, bind, deref.
  rewrite Ho, Hd. reflexivity.
Qed.

Lemma insert_last (l : list Task) (x y : Task) : <[length l := x]> (l ++ [y]) = l ++ [x].
Proof.
  rewrite insert_app_r_alt by lia. rewrite Nat.sub_diag. reflexivity.
Qed.

Lemma lookup_last (l : list Task) (x : Task) : (l ++ [x]) !! length l = Some x.
Proof. apply list_lookup_middle. reflexivity. Qed.

Lemma is_terminal_spec (s : TaskState) :
  is_terminal s = true ↔ s = COMPLETED ∨ s = FAILED ∨ s = CANCELED.
Proof.
  split.
  - destruct s; simpl; intros H; try discriminate H; auto.
  - intros [-> | [-> | ->]]; reflexivity.
Qed.

Lemma stored_lt (w : World) tid r tk : stored w tid r tk → (r < length (objs w))%nat.
Proof. intros (_ & Ho & _). eapply lookup_lt_Some, Ho. Qed.

Lemma stored_after (w : World) tid r tk tk' c u tr :
  stored w tid r tk → task_id tk' = tid →
  stored {| objs := <[r := tk']> (objs w); _tasks := _tasks w;
            clock_reads := c; uuid_draws := u; trace := tr |} tid r tk'.
Proof.
  intros (Hd & Ho & Hid) Hid'. split; [exact Hd|]. split; [|exact Hid'].
  cbn. apply list_lookup_insert_eq. eapply lookup_lt_Some, Ho.
Qed.

Lemma stored_new (w : World) tk c u tr :
  stored {| objs := objs w ++ [tk];
            _tasks := <[task_id tk := length (objs w)]> (_tasks w);
            clock_reads := c; uuid_draws := u; trace := tr |}
         (task_id tk) (length (objs w)) tk.
Proof.
  split; [apply lookup_insert_eq|]. split; [apply lookup_last | reflexivity].
Qed.

Lemma new_trace_app (w w' : World) (l : list Action) :
  trace w' = trace w ++ l → new_trace w w' = l.
Proof. intros H. unfold new_trace. rewrite H. apply drop_app_length. Qed.

(** *** Symbolic execution of a sequence of commands *)

(** Reduce the projections of an explicitly given world. *)
Ltac fields := cbn [objs _tasks clock_reads uuid_draws trace set_objs set_tasks].

(** [step L] runs the first command of a sequence with the equation [L]. *)
Ltac step L := rewrite (bind_ok _ _ _ _ _ L); fields.

(** The object behind [r], after any number of writes to it. *)
Ltac heap :=
  fields; rewrite ?list_insert_insert_eq;
  first [ assumption
        | apply list_lookup_insert_eq; rewrite ?length_insert; assumption ].

(** [run L] is [step L] with the premises of [L] found by [heap]. *)
Ltac run L :=
  erewrite bind_ok; [| eapply L; first [heap | eassumption | reflexivity] .. ];
  fields.

(** Reading the clock, yielding an item, drawing an id, constructing the task. *)
Ltac tick := unfold now at 1; unfold bind at 1; fields.
Ltac emit := unfold TaskManager.yield_ at 1, log at 1; unfold bind at 1; fields.
Ltac draw := unfold new_uuid at 1; unfold bind at 1; fields.
Ltac construct := unfold alloc at 1; unfold bind at 1; fields.

(** The same for the object [create_task] has just constructed, which is
    the last one of the heap. *)
Ltac last_obj := fields; rewrite ?insert_last; apply lookup_last.
Ltac step_last L :=
  erewrite bind_ok; [| eapply L; first [last_obj | eassumption | reflexivity] .. ];
  fields.
Ltac persist_last :=
  erewrite bind_ok;
    [| eapply update_task_run; [last_obj | cbn; apply lookup_insert_eq] ];
  fields.

(** ** Running the operations

    One equation per path through each operation: the result and the
    world it leaves. *)

Lemma get_task_run (w : World) params r tk :
  _tasks w !! q_id params = Some r → objs w !! r = Some tk →
  TaskManager.get_task params w =
    (Ok r,
     match history_length params, history tk with
     | Some n, Some (m :: l) =>
         set_objs (<[r := with_history (Some (slice_from (- n) (m :: l))) tk]> (objs w)) w
     | _, _ => w
     end).
Proof.
  intros Hd Ho.
  unfold TaskManager.get_task, InMemoryTaskStore.get_task, bind, deref.
  rewrite Hd, Ho.
  destruct (history_length params) as [n|]; [|reflexivity].
  destruct (history tk) as [[|m l]|]; try reflexivity.
  unfold assign. rewrite Ho. reflexivity.
Qed.

Lemma resubscribe_task_run (w : World) tid r tk :
  _tasks w !! tid = Some r →
  objs w !! r = Some tk →
  TaskManager.resubscribe_task tid w =
    (Ok tt, {| objs := objs w; _tasks := _tasks w; clock_reads := clock_reads w;
               uuid_draws := uuid_draws w;
               trace := trace w ++
                 [Emitted (TaskManager.status_event tid (status tk)
                             (is_terminal (state (status tk))))] |}).
Proof.
  intros Hd Ho.
  unfold TaskManager.resubscribe_task, InMemoryTaskStore.get_task, bind, deref.
  rewrite Hd, Ho. reflexivity.
Qed.

Lemma cancel_task_terminal env self (w : World) tid r tk :
  _tasks w !! tid = Some r → objs w !! r = Some tk →
  is_terminal (state (status tk)) = true →
  TaskManager.cancel_task env self tid w = (Raise (TaskNotCancelableException tid), w).
Proof.
  intros Hd Ho Ht.
  unfold TaskManager.cancel_task, InMemoryTaskStore.get_task, bind, deref.
  rewrite Hd, Ho, Ht. reflexivity.
Qed.

Lemma cancel_task_run env self (w : World) tid r tk :
  stored w tid r tk →
  is_terminal (state (status tk)) = false →
  TaskManager.cancel_task env self tid w =
    (match TaskManager.on_task_canceled self with
     | Some f => match f (canceled env w tk) with
                 | Returns _ => Ok r
                 | Raises e => Raise e
                 end
     | None => Ok r
     end,
     {| objs := <[r := canceled env w tk]> (objs w);
        _tasks := _tasks w;
        clock_reads := S (clock_reads w);
        uuid_draws := uuid_draws w;
        trace := trace w ++ [Persisted UPDATE (canceled env w tk)] |}).
Proof.
  intros (Hd & Ho & Hid) Ht.
  assert (Hlt : (r < length (objs w))%nat) by (eapply lookup_lt_Some, Ho).
  unfold TaskManager.cancel_task.
  step (store_get_task_run _ _ _ Hd).
  step (deref_run _ _ _ Ho).
  rewrite Ht.
  tick.
  run set_status_run.
  erewrite bind_ok; [| eapply update_task_run; [heap | cbn; rewrite Hid; exact Hd] ].
  cbn [objs _tasks clock_reads uuid_draws trace set_objs set_tasks task_id with_status].
  rewrite Hid, (insert_id _ _ _ Hd).
  fold (canceled env w tk).
  destruct (TaskManager.on_task_canceled self) as [f|]; [|reflexivity].
  destruct (f (canceled env w tk)) as [[]|e] eqn:Hf.
  - erewrite bind_ok; [reflexivity|]. eapply notify_run; [heap | exact Hf].
  - apply bind_raise. eapply notify_raise; [heap | exact Hf].
Qed.

Lemma send_task_message_no_handler env self (w : World) tid params r tk :
  stored w tid r tk →
  TaskManager.on_message_received self = None →
  TaskManager.send_task_message env self tid params w =
    (Ok r, {| objs := <[r := received env w (sp_message params) tk]> (objs w);
              _tasks := _tasks w;
              clock_reads := S (clock_reads w);
              uuid_draws := uuid_draws w;
              trace := trace w ++ [Persisted UPDATE (received env w (sp_message params) tk)] |}).
Proof.
  intros (Hd & Ho & Hid) Hh.
  assert (Hlt : (r < length (objs w))%nat) by (eapply lookup_lt_Some, Ho).
  unfold TaskManager.send_task_message.
  step (store_get_task_run _ _ _ Hd).
  step (ensure_history_run _ _ _ Ho).
  erewrite bind_ok; [| eapply history_append_run; [heap | reflexivity ] ].
  unfold now at 1. unfold bind at 1.
  erewrite bind_ok; [| eapply set_status_run; heap ].
  erewrite bind_ok; [| eapply update_task_run; [heap | cbn; rewrite Hid; exact Hd] ].
  rewrite Hh.
  erewrite bind_ok; [| apply try_ok; reflexivity ].
  cbn. rewrite !list_insert_insert_eq, Hid, (insert_id _ _ _ Hd).
  reflexivity.
Qed.

Lemma send_task_message_answered env self (w : World) tid params r tk h resp :
  stored w tid r tk →
  TaskManager.on_message_received self = Some h →
  h (sp_message params) = Returns resp →
  hook_returns (TaskManager.on_task_updated self) (answered env w (sp_message params) resp tk) →
  TaskManager.send_task_message env self tid params w =
    (Ok r, {| objs := <[r := answered env w (sp_message params) resp tk]> (objs w);
              _tasks := _tasks w;
              clock_reads := S (S (clock_reads w));
              uuid_draws := uuid_draws w;
              trace := trace w ++
                [Persisted UPDATE (received env w (sp_message params) tk);
                 Invoked (sp_message params);
                 Persisted UPDATE (answered env w (sp_message params) resp tk)] |}).
Proof.
  intros (Hd & Ho & Hid) Hh Hresp Hhook.
  assert (Hlt : (r < length (objs w))%nat) by (eapply lookup_lt_Some, Ho).
  unfold TaskManager.send_task_message.
  step (store_get_task_run _ _ _ Hd).
  step (ensure_history_run _ _ _ Ho).
  run history_append_run.
  tick.
  run set_status_run.
  erewrite bind_ok; [| eapply update_task_run; [heap | cbn; rewrite Hid; exact Hd] ].
  rewrite Hh.
  erewrite bind_ok; cycle 1.
  { apply try_ok.
  run invoke_run.
  run history_append_run.
  tick.
  run set_status_run.
  erewrite bind_ok; [| eapply update_task_run;
                       [heap | cbn; rewrite Hid, lookup_insert_eq; reflexivity] ].
  eapply notify_run; [ heap | exact Hhook ]. }
  cbn. rewrite !list_insert_insert_eq, Hid, insert_insert_eq, (insert_id _ _ _ Hd),
    <- !(app_assoc (trace w)).
  reflexivity.
Qed.

Lemma send_task_message_broken env self (w : World) tid params r tk h e :
  stored w tid r tk →
  TaskManager.on_message_received self = Some h →
  h (sp_message params) = Raises e →
  TaskManager.send_task_message env self tid params w =
    (Raise (InternalErrorException ("Error processing task message: " +:+ str e)),
     {| objs := <[r := broken env w (sp_message params) tk]> (objs w);
        _tasks := _tasks w;
        clock_reads := S (S (clock_reads w));
        uuid_draws := uuid_draws w;
        trace := trace w ++
          [Persisted UPDATE (received env w (sp_message params) tk);
           Invoked (sp_message params);
           Persisted UPDATE (broken env w (sp_message params) tk)] |}).
Proof.
  intros (Hd & Ho & Hid) Hh Hresp.
  assert (Hlt : (r < length (objs w))%nat) by (eapply lookup_lt_Some, Ho).
  unfold TaskManager.send_task_message.
  step (store_get_task_run _ _ _ Hd).
  step (ensure_history_run _ _ _ Ho).
  run history_append_run.
  tick.
  run set_status_run.
  erewrite bind_ok; [| eapply update_task_run; [heap | cbn; rewrite Hid; exact Hd] ].
  rewrite Hh.
  erewrite bind_raise; [reflexivity|].
  erewrite try_raise; [| eapply bind_raise, invoke_raise, Hresp ].
  tick.
  run set_status_run.
  erewrite bind_ok; [| eapply update_task_run;
                       [heap | cbn; rewrite Hid, lookup_insert_eq; reflexivity] ].
  cbn. rewrite !list_insert_insert_eq, Hid, insert_insert_eq, (insert_id _ _ _ Hd),
    <- !(app_assoc (trace w)).
  reflexivity.
Qed.

Lemma send_task_message_soured env self (w : World) tid params r tk h resp f e :
  stored w tid r tk →
  TaskManager.on_message_received self = Some h →
  h (sp_message params) = Returns resp →
  TaskManager.on_task_updated self = Some f →
  f (answered env w (sp_message params) resp tk) = Raises e →
  TaskManager.send_task_message env self tid params w =
    (Raise (InternalErrorException ("Error processing task message: " +:+ str e)),
     {| objs := <[r := soured env w (sp_message params) resp tk]> (objs w);
        _tasks := _tasks w;
        clock_reads := S (S (S (clock_reads w)));
        uuid_draws := uuid_draws w;
        trace := trace w ++
          [Persisted UPDATE (received env w (sp_message params) tk);
           Invoked (sp_message params);
           Persisted UPDATE (answered env w (sp_message params) resp tk);
           Persisted UPDATE (soured env w (sp_message params) resp tk)] |}).
Proof.
  intros (Hd & Ho & Hid) Hh Hresp Hu Hf.
  assert (Hlt : (r < length (objs w))%nat) by (eapply lookup_lt_Some, Ho).
  unfold TaskManager.send_task_message.
  step (store_get_task_run _ _ _ Hd).
  step (ensure_history_run _ _ _ Ho).
  run history_append_run.
  tick.
  run set_status_run.
  erewrite bind_ok; [| eapply update_task_run; [heap | cbn; rewrite Hid; exact Hd] ].
  rewrite Hh, Hu.
  erewrite bind_raise; [reflexivity|].
  erewrite try_raise; cycle 1.
  { run invoke_run.
    run history_append_run.
    tick.
    run set_status_run.
    erewrite bind_ok; [| eapply update_task_run;
                         [heap | cbn; rewrite Hid, lookup_insert_eq; reflexivity] ].
    eapply notify_raise; [heap | exact Hf]. }
  tick.
  run set_status_run.
  erewrite bind_ok; [| eapply update_task_run;
                       [heap | cbn; rewrite Hid, lookup_insert_eq; reflexivity] ].
  cbn. rewrite !list_insert_insert_eq, Hid, !insert_insert_eq, (insert_id _ _ _ Hd),
    <- !(app_assoc (trace w)).
  reflexivity.
Qed.

Lemma stream_no_handler env self (w : World) tid params r tk :
  stored w tid r tk →
  TaskManager.on_message_received self = None →
  TaskManager.send_task_message_stream env self tid params w =
    (Ok tt, {| objs := <[r := received env w (sp_message params) tk]> (objs w);
               _tasks := _tasks w;
               clock_reads := S (clock_reads w);
               uuid_draws := uuid_draws w;
               trace := trace w ++
                 [Persisted UPDATE (received env w (sp_message params) tk);
                  Emitted (TaskManager.status_event tid (working env (clock_reads w)) false)] |}).
Proof.
  intros (Hd & Ho & Hid) Hh.
  assert (Hlt : (r < length (objs w))%nat) by (eapply lookup_lt_Some, Ho).
  unfold TaskManager.send_task_message_stream.
  step (store_get_task_run _ _ _ Hd).
  step (ensure_history_run _ _ _ Ho).
  run history_append_run.
  tick.
  run set_status_run.
  erewrite bind_ok; [| eapply update_task_run; [heap | cbn; rewrite Hid; exact Hd] ].
  run deref_run.
  emit.
  rewrite Hh. unfold try_except, ret.
  cbn. rewrite !list_insert_insert_eq, Hid, (insert_id _ _ _ Hd), <- !(app_assoc (trace w)).
  reflexivity.
Qed.

Lemma stream_answered env self (w : World) tid params r tk h resp :
  stored w tid r tk →
  TaskManager.on_message_received self = Some h →
  h (sp_message params) = Returns resp →
  hook_returns (TaskManager.on_task_updated self) (answered env w (sp_message params) resp tk) →
  TaskManager.send_task_message_stream env self tid params w =
    (Ok tt, {| objs := <[r := answered env w (sp_message params) resp tk]> (objs w);
               _tasks := _tasks w;
               clock_reads := S (S (clock_reads w));
               uuid_draws := uuid_draws w;
               trace := trace w ++
                 [Persisted UPDATE (received env w (sp_message params) tk);
                  Emitted (TaskManager.status_event tid (working env (clock_reads w)) false);
                  Invoked (sp_message params);
                  Persisted UPDATE (answered env w (sp_message params) resp tk);
                  Emitted (TaskManager.status_event tid
                             (completed env (S (clock_reads w)) resp) true)] |}).
Proof.
  intros (Hd & Ho & Hid) Hh Hresp Hhook.
  assert (Hlt : (r < length (objs w))%nat) by (eapply lookup_lt_Some, Ho).
  unfold TaskManager.send_task_message_stream.
  step (store_get_task_run _ _ _ Hd).
  step (ensure_history_run _ _ _ Ho).
  run history_append_run.
  tick.
  run set_status_run.
  erewrite bind_ok; [| eapply update_task_run; [heap | cbn; rewrite Hid; exact Hd] ].
  run deref_run.
  emit.
  rewrite Hh.
  apply try_ok.
  run invoke_run.
  run history_append_run.
  tick.
  run set_status_run.
  erewrite bind_ok; [| eapply update_task_run;
                       [heap | cbn; rewrite Hid, lookup_insert_eq; reflexivity] ].
  run deref_run.
  emit.
  erewrite notify_run; [| heap | exact Hhook].
  cbn. rewrite !list_insert_insert_eq, Hid, insert_insert_eq, (insert_id _ _ _ Hd),
    <- !(app_assoc (trace w)).
  reflexivity.
Qed.

Lemma stream_broken env self (w : World) tid params r tk h e :
  stored w tid r tk →
  TaskManager.on_message_received self = Some h →
  h (sp_message params) = Raises e →
  TaskManager.send_task_message_stream env self tid params w =
    (Raise (InternalErrorException ("Error processing task message: " +:+ str e)),
     {| objs := <[r := broken env w (sp_message params) tk]> (objs w);
        _tasks := _tasks w;
        clock_reads := S (S (clock_reads w));
        uuid_draws := uuid_draws w;
        trace := trace w ++
          [Persisted UPDATE (received env w (sp_message params) tk);
           Emitted (TaskManager.status_event tid (working env (clock_reads w)) false);
           Invoked (sp_message params);
           Persisted UPDATE (broken env w (sp_message params) tk);
           Emitted (TaskManager.status_event tid (failed env (S (clock_reads w))) true)] |}).
Proof.
  intros (Hd & Ho & Hid) Hh Hresp.
  assert (Hlt : (r < length (objs w))%nat) by (eapply lookup_lt_Some, Ho).
  unfold TaskManager.send_task_message_stream.
  step (store_get_task_run _ _ _ Hd).
  step (ensure_history_run _ _ _ Ho).
  run history_append_run.
  tick.
  run set_status_run.
  erewrite bind_ok; [| eapply update_task_run; [heap | cbn; rewrite Hid; exact Hd] ].
  run deref_run.
  emit.
  rewrite Hh.
  erewrite try_raise; [| eapply bind_raise, invoke_raise, Hresp ].
  tick.
  run set_status_run.
  erewrite bind_ok; [| eapply update_task_run;
                       [heap | cbn; rewrite Hid, lookup_insert_eq; reflexivity] ].
  run deref_run.
  emit.
  cbn. rewrite !list_insert_insert_eq, Hid, insert_insert_eq, (insert_id _ _ _ Hd),
    <- !(app_assoc (trace w)).
  reflexivity.
Qed.

Lemma stream_soured env self (w : World) tid params r tk h resp f e :
  stored w tid r tk →
  TaskManager.on_message_received self = Some h →
  h (sp_message params) = Returns resp →
  TaskManager.on_task_updated self = Some f →
  f (answered env w (sp_message params) resp tk) = Raises e →
  TaskManager.send_task_message_stream env self tid params w =
    (Raise (InternalErrorException ("Error processing task message: " +:+ str e)),
     {| objs := <[r := soured env w (sp_message params) resp tk]> (objs w);
        _tasks := _tasks w;
        clock_reads := S (S (S (clock_reads w)));
        uuid_draws := uuid_draws w;
        trace := trace w ++
          [Persisted UPDATE (received env w (sp_message params) tk);
           Emitted (TaskManager.status_event tid (working env (clock_reads w)) false);
           Invoked (sp_message params);
           Persisted UPDATE (answered env w (sp_message params) resp tk);
           Emitted (TaskManager.status_event tid
                      (completed env (S (clock_reads w)) resp) true);
           Persisted UPDATE (soured env w (sp_message params) resp tk);
           Emitted (TaskManager.status_event tid
                      (failed env (S (S (clock_reads w)))) true)] |}).
Proof.
  intros (Hd & Ho & Hid) Hh Hresp Hu Hf.
  assert (Hlt : (r < length (objs w))%nat) by (eapply lookup_lt_Some, Ho).
  unfold TaskManager.send_task_message_stream.
  step (store_get_task_run _ _ _ Hd).
  step (ensure_history_run _ _ _ Ho).
  run history_append_run.
  tick.
  run set_status_run.
  erewrite bind_ok; [| eapply update_task_run; [heap | cbn; rewrite Hid; exact Hd] ].
  run deref_run.
  emit.
  rewrite Hh, Hu.
  erewrite try_raise; cycle 1.
  { run invoke_run.
    run history_append_run.
    tick.
    run set_status_run.
    erewrite bind_ok; [| eapply update_task_run;
                         [heap | cbn; rewrite Hid, lookup_insert_eq; reflexivity] ].
    run deref_run.
    emit.
    eapply notify_raise; [heap | exact Hf]. }
  tick.
  run set_status_run.
  erewrite bind_ok; [| eapply update_task_run;
                       [heap | cbn; rewrite Hid, lookup_insert_eq; reflexivity] ].
  run deref_run.
  emit.
  cbn. rewrite !list_insert_insert_eq, Hid, !insert_insert_eq, (insert_id _ _ _ Hd),
    <- !(app_assoc (trace w)).
  reflexivity.
Qed.

Lemma create_task_duplicate env self params (w : World) r0 :
  _tasks w !! uuid4 env (uuid_draws w) = Some r0 →
  TaskManager.create_task env self params w =
    (Raise (ValueError ("Task with ID " +:+ uuid4 env (uuid_draws w) +:+ " already exists")),
     {| objs := objs w ++ [submitted env w params];
        _tasks := _tasks w;
        clock_reads := S (clock_reads w);
        uuid_draws := S (uuid_draws w);
        trace := trace w |}).
Proof.
  intros Hdup.
  unfold TaskManager.create_task.
  draw. tick. construct.
  fold (submitted env w params).
  apply bind_raise.
  unfold InMemoryTaskStore.create_task.
  erewrite bind_ok; [| apply deref_run; last_obj ].
  cbn. rewrite Hdup. reflexivity.
Qed.

Lemma create_task_unannounced env self params (w : World) f e :
  _tasks w !! uuid4 env (uuid_draws w) = None →
  TaskManager.on_task_created self = Some f →
  f (submitted env w params) = Raises e →
  TaskManager.create_task env self params w =
    (Raise e,
     {| objs := objs w ++ [submitted env w params];
        _tasks := <[uuid4 env (uuid_draws w) := length (objs w)]> (_tasks w);
        clock_reads := S (clock_reads w);
        uuid_draws := S (uuid_draws w);
        trace := trace w ++ [Persisted CREATE (submitted env w params)] |}).
Proof.
  intros Hfresh Hc Hf.
  unfold TaskManager.create_task.
  draw. tick. construct.
  fold (submitted env w params).
  erewrite bind_ok; [| eapply store_create_task_run; [last_obj | exact Hfresh] ].
  fields.
  apply bind_raise. rewrite Hc.
  eapply notify_raise; [last_obj | exact Hf].
Qed.

Lemma create_task_no_handler env self params (w : World) :
  _tasks w !! uuid4 env (uuid_draws w) = None →
  hook_returns (TaskManager.on_task_created self) (submitted env w params) →
  TaskManager.on_message_received self = None →
  TaskManager.create_task env self params w =
    (Ok (length (objs w)),
     {| objs := objs w ++ [started env w params];
        _tasks := <[uuid4 env (uuid_draws w) := length (objs w)]> (_tasks w);
        clock_reads := S (S (clock_reads w));
        uuid_draws := S (uuid_draws w);
        trace := trace w ++
          [Persisted CREATE (submitted env w params);
           Persisted UPDATE (started env w params)] |}).
Proof.
  intros Hfresh Hc Hh.
  unfold TaskManager.create_task.
  draw. tick. construct.
  fold (submitted env w params).
  erewrite bind_ok; [| eapply store_create_task_run; [last_obj | exact Hfresh] ].
  fields.
  erewrite bind_ok; [| eapply notify_run; [last_obj | exact Hc] ].
  rewrite Hh.
  erewrite bind_ok; cycle 1.
  { apply try_ok.
    tick.
    step_last set_status_run.
    persist_last.
    reflexivity. }
  cbn. rewrite !insert_last, insert_insert_eq, <- !(app_assoc (trace w)).
  reflexivity.
Qed.

Lemma create_task_answered env self params (w : World) h resp :
  _tasks w !! uuid4 env (uuid_draws w) = None →
  hook_returns (TaskManager.on_task_created self) (submitted env w params) →
  TaskManager.on_message_received self = Some h →
  h (sp_message params) = Returns resp →
  hook_returns (TaskManager.on_task_updated self) (finished env w params resp) →
  TaskManager.create_task env self params w =
    (Ok (length (objs w)),
     {| objs := objs w ++ [finished env w params resp];
        _tasks := <[uuid4 env (uuid_draws w) := length (objs w)]> (_tasks w);
        clock_reads := S (S (S (clock_reads w)));
        uuid_draws := S (uuid_draws w);
        trace := trace w ++
          [Persisted CREATE (submitted env w params);
           Persisted UPDATE (started env w params);
           Invoked (sp_message params);
           Persisted UPDATE (finished env w params resp)] |}).
Proof.
  intros Hfresh Hc Hh Hresp Hu.
  unfold TaskManager.create_task.
  draw. tick. construct.
  fold (submitted env w params).
  erewrite bind_ok; [| eapply store_create_task_run; [last_obj | exact Hfresh] ].
  fields.
  erewrite bind_ok; [| eapply notify_run; [last_obj | exact Hc] ].
  rewrite Hh.
  erewrite bind_ok; cycle 1.
  { apply try_ok.
    tick.
    step_last set_status_run.
    persist_last.
    run invoke_run.
    step_last history_append_run.
    tick.
    step_last set_status_run.
    persist_last.
    eapply notify_run; [last_obj | exact Hu]. }
  cbn. rewrite !insert_last, !insert_insert_eq, <- !(app_assoc (trace w)).
  reflexivity.
Qed.

Lemma create_task_broken env self params (w : World) h e :
  _tasks w !! uuid4 env (uuid_draws w) = None →
  hook_returns (TaskManager.on_task_created self) (submitted env w params) →
  TaskManager.on_message_received self = Some h →
  h (sp_message params) = Raises e →
  TaskManager.create_task env self params w =
    (Raise (InternalErrorException ("Error processing task: " +:+ str e)),
     {| objs := objs w ++ [crashed env w params];
        _tasks := <[uuid4 env (uuid_draws w) := length (objs w)]> (_tasks w);
        clock_reads := S (S (S (clock_reads w)));
        uuid_draws := S (uuid_draws w);
        trace := trace w ++
          [Persisted CREATE (submitted env w params);
           Persisted UPDATE (started env w params);
           Invoked (sp_message params);
           Persisted UPDATE (crashed env w params)] |}).
Proof.
  intros Hfresh Hc Hh Hresp.
  unfold TaskManager.create_task.
  draw. tick. construct.
  fold (submitted env w params).
  erewrite bind_ok; [| eapply store_create_task_run; [last_obj | exact Hfresh] ].
  fields.
  erewrite bind_ok; [| eapply notify_run; [last_obj | exact Hc] ].
  rewrite Hh.
  erewrite bind_raise; [reflexivity|].
  erewrite try_raise; cycle 1.
  { tick.
    step_last set_status_run.
    persist_last.
    eapply bind_raise, invoke_raise, Hresp. }
  tick.
  step_last set_status_run.
  persist_last.
  cbn. rewrite !insert_last, !insert_insert_eq, <- !(app_assoc (trace w)).
  reflexivity.
Qed.

Lemma create_task_spoiled env self params (w : World) h resp f e :
  _tasks w !! uuid4 env (uuid_draws w) = None →
  hook_returns (TaskManager.on_task_created self) (submitted env w params) →
  TaskManager.on_message_received self = Some h →
  h (sp_message params) = Returns resp →
  TaskManager.on_task_updated self = Some f →
  f (finished env w params resp) = Raises e →
  TaskManager.create_task env self params w =
    (Raise (InternalErrorException ("Error processing task: " +:+ str e)),
     {| objs := objs w ++ [spoiled env w params resp];
        _tasks := <[uuid4 env (uuid_draws w) := length (objs w)]> (_tasks w);
        clock_reads := S (S (S (S (clock_reads w))));
        uuid_draws := S (uuid_draws w);
        trace := trace w ++
          [Persisted CREATE (submitted env w params);
           Persisted UPDATE (started env w params);
           Invoked (sp_message params);
           Persisted UPDATE (finished env w params resp);
           Persisted UPDATE (spoiled env w params resp)] |}).
Proof.
  intros Hfresh Hc Hh Hresp Hu Hf.
  unfold TaskManager.create_task.
  draw. tick. construct.
  fold (submitted env w params).
  erewrite bind_ok; [| eapply store_create_task_run; [last_obj | exact Hfresh] ].
  fields.
  erewrite bind_ok; [| eapply notify_run; [last_obj | exact Hc] ].
  rewrite Hh, Hu.
  erewrite bind_raise; [reflexivity|].
  erewrite try_raise; cycle 1.
  { tick.
    step_last set_status_run.
    persist_last.
    run invoke_run.
    step_last history_append_run.
    tick.
    step_last set_status_run.
    persist_last.
    eapply notify_raise; [last_obj | exact Hf]. }
  tick.
  step_last set_status_run.
  persist_last.
  cbn. rewrite !insert_last, !insert_insert_eq, <- !(app_assoc (trace w)).
  reflexivity.
Qed.

Lemma create_task_heap env self params (w : World) :
  ∃ x, objs (snd (TaskManager.create_task env self params w)) = objs w ++ [x].
Proof.
  destruct (_tasks w !! uuid4 env (uuid_draws w)) as [r0|] eqn:Hfresh.
  { rewrite (create_task_duplicate env self params w r0 Hfresh). eexists. reflexivity. }
  destruct (hook_cases (TaskManager.on_task_created self) (submitted env w params))
    as [Hc | (f & e' & Hc & Hf)];
    [| rewrite (create_task_unannounced env self params w f e' Hfresh Hc Hf);
       eexists; reflexivity ].
  destruct (TaskManager.on_message_received self) as [h|] eqn:Hh;
    [| rewrite (create_task_no_handler env self params w Hfresh Hc Hh);
       eexists; reflexivity ].
  destruct (h (sp_message params)) as [resp|e] eqn:Hresp;
    [| rewrite (create_task_broken env self params w h e Hfresh Hc Hh Hresp);
       eexists; reflexivity ].
  destruct (hook_cases (TaskManager.on_task_updated self) (finished env w params resp))
    as [Hu | (f & e' & Hu & Hf)].
  - rewrite (create_task_answered env self params w h resp Hfresh Hc Hh Hresp Hu).
    eexists. reflexivity.
  - rewrite (create_task_spoiled env self params w h resp f e' Hfresh Hc Hh Hresp Hu Hf).
    eexists. reflexivity.
Qed.

Lemma process_message_heap self m (w : World) :
  objs (snd (TaskManager.process_message self m w)) = objs w.
Proof.
  unfold TaskManager.process_message.
  destruct (TaskManager.on_message_received self) as [h|]; [|reflexivity].
  unfold try_except, TaskManager.invoke, bind, log, call, raise.
  destruct (h m); reflexivity.
Qed.

(** One path of a send operation against the cases of [reopened]: the
    cases of the other paths contradict the handler's or the callback's
    outcome on this one. *)
Ltac reopened_path Hs :=
  cbn [fst snd];
  erewrite new_trace_app by reflexivity;
  unfold hook_returns in *;
  repeat match goal with
  | |- _ ∧ _ => split
  | |- _ → _ => intro
  | |- ∀ _, _ => intro
  end;
  repeat first
    [ progress simplify_eq
    | match goal with
      | H1 : ?x = _, H2 : ?x = _ |- _ => rewrite H1 in H2
      | H1 : ?x = Some _, H2 : match ?x with Some _ => _ | None => _ end |- _ =>
          rewrite H1 in H2; simpl in H2
      end ];
  try reflexivity;
  try (eexists; split;
       [ apply (stored_after _ _ _ _ _ _ _ _ Hs); destruct Hs as (_ & _ & Hid); exact Hid
       | split; reflexivity ]).

Lemma send_task_message_reopens env self params (w : World) tid r tk :
  stored w tid r tk →
  reopened env self params tid r tk r w
    (TaskManager.send_task_message env self tid params w).
Proof.
  intros Hs. unfold reopened. cbv zeta.
  destruct (TaskManager.on_message_received self) as [h|] eqn:Hh.
  - destruct (h (sp_message params)) as [resp|e] eqn:Hresp.
    + destruct (hook_cases (TaskManager.on_task_updated self)
                  (answered env w (sp_message params) resp tk))
        as [Hu | (f & e' & Hu & Hf)].
      * rewrite (send_task_message_answered env self w tid params r tk h resp Hs Hh Hresp Hu).
        reopened_path Hs.
      * rewrite (send_task_message_soured env self w tid params r tk h resp f e'
                   Hs Hh Hresp Hu Hf).
        reopened_path Hs.
    + rewrite (send_task_message_broken env self w tid params r tk h e Hs Hh Hresp).
      reopened_path Hs.
  - rewrite (send_task_message_no_handler env self w tid params r tk Hs Hh).
    reopened_path Hs.
Qed.

Lemma stream_reopens env self params (w : World) tid r tk :
  stored w tid r tk →
  reopened env self params tid r tk tt w
    (TaskManager.send_task_message_stream env self tid params w).
Proof.
  intros Hs. unfold reopened. cbv zeta.
  destruct (TaskManager.on_message_received self) as [h|] eqn:Hh.
  - destruct (h (sp_message params)) as [resp|e] eqn:Hresp.
    + destruct (hook_cases (TaskManager.on_task_updated self)
                  (answered env w (sp_message params) resp tk))
        as [Hu | (f & e' & Hu & Hf)].
      * rewrite (stream_answered env self w tid params r tk h resp Hs Hh Hresp Hu).
        reopened_path Hs.
      * rewrite (stream_soured env self w tid params r tk h resp f e' Hs Hh Hresp Hu Hf).
        reopened_path Hs.
    + rewrite (stream_broken env self w tid params r tk h e Hs Hh Hresp).
      reopened_path Hs.
  - rewrite (stream_no_handler env self w tid params r tk Hs Hh).
    reopened_path Hs.
Qed.

(** ** The task store *)

(** C7. Store round trip: a task filed under a new id is what [get_task]
    returns; an update filed afterwards (of the same object mutated in
    place, or of another object with that id) is what [get_task] returns
    next; after [delete_task] the id does not exist and [get_task] fails
    with [TaskNotFoundException]; deleting an absent id returns [False]. *)
Theorem store_round_trip (w : World) (task : ref) (tk : Task) :
  objs w !! task = Some tk →
  _tasks w !! task_id tk = None →
  ∃ w1,
    InMemoryTaskStore.create_task task w = (Ok task, w1) ∧
    InMemoryTaskStore.get_task (task_id tk) w1 = (Ok task, w1) ∧
    objs w1 !! task = Some tk ∧
    (∀ (heap : list Task) (task' : ref) (tk' : Task),
        heap !! task' = Some tk' →
        task_id tk' = task_id tk →
        ∃ w2,
          InMemoryTaskStore.update_task task' (set_objs heap w1) = (Ok task', w2) ∧
          InMemoryTaskStore.get_task (task_id tk) w2 = (Ok task', w2) ∧
          objs w2 !! task' = Some tk' ∧
          ∃ w3,
            InMemoryTaskStore.delete_task (task_id tk) w2 = (Ok true, w3) ∧
            InMemoryTaskStore.task_exists (task_id tk) w3 = (Ok false, w3) ∧
            InMemoryTaskStore.get_task (task_id tk) w3 =
              (Raise (TaskNotFoundException (task_id tk)), w3) ∧
            code (TaskNotFoundException (task_id tk)) = Some (-32001) ∧
            InMemoryTaskStore.delete_task (task_id tk) w3 = (Ok false, w3)).
Proof.
  intros Ho Hfresh.
  eexists. split.
  { unfold InMemoryTaskStore.create_task, bind, deref. rewrite Ho, Hfresh.
    reflexivity. }
  split.
  { unfold InMemoryTaskStore.get_task. cbn. rewrite lookup_insert_eq. reflexivity. }
  split; [exact Ho|].
  intros heap task' tk' Ho' Hid.
  eexists. split.
  { erewrite update_task_run; [reflexivity | exact Ho' |].
    cbn. rewrite Hid. apply lookup_insert_eq. }
  split.
  { unfold InMemoryTaskStore.get_task. cbn. rewrite Hid, lookup_insert_eq. reflexivity. }
  split; [exact Ho'|].
  eexists. split.
  { unfold InMemoryTaskStore.delete_task. cbn. rewrite Hid, lookup_insert_eq. reflexivity. }
  split.
  { unfold InMemoryTaskStore.task_exists. cbn. rewrite lookup_delete_eq.
    rewrite bool_decide_eq_false_2; [reflexivity|]. intros [x Hx]. discriminate Hx. }
  split.
  { unfold InMemoryTaskStore.get_task. cbn. rewrite lookup_delete_eq. reflexivity. }
  split; [reflexivity|].
  unfold InMemoryTaskStore.delete_task. cbn. rewrite lookup_delete_eq. reflexivity.
Qed.

Lemma store_round_trip_witness :
  ∃ w1,
    InMemoryTaskStore.create_task 0%nat
      (set_objs [sample_task "test-task-1" SUBMITTED None] empty_world) = (Ok 0%nat, w1) ∧
    InMemoryTaskStore.get_task "test-task-1" w1 = (Ok 0%nat, w1).
Proof.
  destruct (store_round_trip
              (set_objs [sample_task "test-task-1" SUBMITTED None] empty_world)
              0%nat (sample_task "test-task-1" SUBMITTED None))
    as (w1 & H1 & H2 & _).
  - reflexivity.
  - reflexivity.
  - exists w1. split; [exact H1 | exact H2].
Defined.

(** ** Reading a task *)

Lemma slice_from_zero {A} (l : list A) : slice_from (- 0) l = l.
Proof.
  unfold slice_from. change (- 0 <? 0) with false. cbv iota.
  rewrite Z.min_l by lia. reflexivity.
Qed.

Lemma slice_from_last {A} (k : Z) (l : list A) :
  1 ≤ k →
  slice_from (- k) l = last_n (Z.to_nat (Z.min k (Z.of_nat (length l)))) l.
Proof.
  intros Hk. unfold slice_from, last_n.
  destruct (Z.ltb_spec (- k) 0) as [_|Hge]; [|lia].
  f_equal. lia.
Qed.

Lemma length_last_n {A} (k : nat) (l : list A) :
  (k ≤ length l)%nat → length (last_n k l) = k.
Proof. intros Hk. unfold last_n. rewrite length_drop. lia. Qed.

(** C10. For a stored task with a non-empty history of n entries, [get_task]
    with [history_length = 0] returns all n entries, and with
    [history_length = k >= 1] exactly the last min(k, n) entries. *)
Theorem get_task_history_length (w : World) params r tk (l : list Message) :
  _tasks w !! q_id params = Some r →
  objs w !! r = Some tk →
  history tk = Some l →
  l ≠ [] →
  ∃ w' tk',
    TaskManager.get_task params w = (Ok r, w') ∧
    objs w' !! r = Some tk' ∧
    (history_length params = Some 0 → history tk' = Some l) ∧
    (∀ k, history_length params = Some k → 1 ≤ k →
       history tk' = Some (last_n (Z.to_nat (Z.min k (Z.of_nat (length l)))) l) ∧
       Z.of_nat (length (last_n (Z.to_nat (Z.min k (Z.of_nat (length l)))) l))
         = Z.min k (Z.of_nat (length l))).
Proof.
  intros Hd Ho Hh Hne.
  assert (Hlt : (r < length (objs w))%nat) by (eapply lookup_lt_Some, Ho).
  rewrite (get_task_run w params r tk Hd Ho), Hh.
  destruct l as [|m l]; [congruence|].
  destruct (history_length params) as [n|].
  - eexists _, _. split; [reflexivity|]. split.
    { cbn. apply list_lookup_insert_eq, Hlt. }
    split.
    + intros [= ->]. cbn [history with_history]. rewrite slice_from_zero. reflexivity.
    + intros k [= ->] Hk. cbn [history with_history].
      rewrite (slice_from_last k _ Hk). split; [reflexivity|].
      rewrite length_last_n by lia. lia.
  - exists w, tk. split; [reflexivity|]. split; [exact Ho|].
    split; [discriminate|]. intros k Hk. discriminate Hk.
Qed.

Lemma get_task_history_length_witness :
  ∃ w' tk',
    TaskManager.get_task (query "t1" (Some 1)) (world_with two_entries) = (Ok 0%nat, w') ∧
    objs w' !! 0%nat = Some tk' ∧
    history tk' = Some [text_message AGENT "second"].
Proof.
  destruct (get_task_history_length (world_with two_entries) (query "t1" (Some 1))
              0%nat two_entries
              [text_message USER "first"; text_message AGENT "second"])
    as (w' & tk' & H1 & H2 & _ & H3).
  - reflexivity.
  - reflexivity.
  - reflexivity.
  - discriminate.
  - exists w', tk'. split; [exact H1|]. split; [exact H2|].
    destruct (H3 1 eq_refl) as [H4 _]; [lia|]. exact H4.
Defined.

(** C2, the code at the failing input. [get_task] assigns the shortened list
    to the very object the store holds: after a call with
    [history_length = 1] on a task with two entries, a call without limit
    returns the same object, which has kept one entry only. *)
Theorem get_task_truncates_the_stored_task :
  ∃ w1 w2 tk2,
    TaskManager.get_task (query "t1" (Some 1)) (world_with two_entries) = (Ok 0%nat, w1) ∧
    TaskManager.get_task (query "t1" None) w1 = (Ok 0%nat, w2) ∧
    objs w2 !! 0%nat = Some tk2 ∧
    history tk2 = Some [text_message AGENT "second"] ∧
    history tk2 ≠ history two_entries.
Proof.
  eexists _, _, _.
  split; [reflexivity|]. split; [reflexivity|]. split; [reflexivity|].
  split; [reflexivity|]. discriminate.
Qed.

(** ** Creating a task and sending a message *)

(** C4. When the handler returns [resp], a task returned by [create_task]
    is COMPLETED with [resp] in [status.message], its history is the inbound
    message followed by [resp], its id is the newly drawn one, which the
    store did not hold before and now maps to the new object; the store was
    written three times: SUBMITTED on creation before the handler was
    called, WORKING before the call, COMPLETED after it.  The call does
    return a task whenever the drawn id is unused and the notification
    callbacks return. *)
Theorem create_task_completed env self params (w : World) h resp :
  TaskManager.on_message_received self = Some h →
  h (sp_message params) = Returns resp →
  (∀ r w',
     TaskManager.create_task env self params w = (Ok r, w') →
     ∃ tk0 tk1 tk,
       stored w' (uuid4 env (uuid_draws w)) r tk ∧
       state (status tk) = COMPLETED ∧
       message (status tk) = Some resp ∧
       history tk = Some [sp_message params; resp] ∧
       _tasks w !! uuid4 env (uuid_draws w) = None ∧
       objs w !! r = None ∧
       new_trace w w' =
         [Persisted CREATE tk0; Persisted UPDATE tk1;
          Invoked (sp_message params); Persisted UPDATE tk] ∧
       state (status tk0) = SUBMITTED ∧
       history tk0 = Some [sp_message params] ∧
       state (status tk1) = WORKING) ∧
  (_tasks w !! uuid4 env (uuid_draws w) = None →
   hook_returns (TaskManager.on_task_created self) (submitted env w params) →
   hook_returns (TaskManager.on_task_updated self) (finished env w params resp) →
   ∃ r w', TaskManager.create_task env self params w = (Ok r, w')).
Proof.
  intros Hh Hresp. split.
  - intros r w' Hrun.
    destruct (_tasks w !! uuid4 env (uuid_draws w)) as [r0|] eqn:Hfresh.
    { rewrite (create_task_duplicate env self params w r0 Hfresh) in Hrun.
      discriminate Hrun. }
    destruct (hook_cases (TaskManager.on_task_created self) (submitted env w params))
      as [Hc | (f & e' & Hc & Hf)];
      [| rewrite (create_task_unannounced env self params w f e' Hfresh Hc Hf) in Hrun;
         discriminate Hrun ].
    destruct (hook_cases (TaskManager.on_task_updated self) (finished env w params resp))
      as [Hu | (f & e' & Hu & Hf)];
      [| rewrite (create_task_spoiled env self params w h resp f e' Hfresh Hc Hh Hresp Hu Hf)
           in Hrun; discriminate Hrun ].
    rewrite (create_task_answered env self params w h resp Hfresh Hc Hh Hresp Hu) in Hrun.
    injection Hrun as <- <-.
    exists (submitted env w params), (started env w params), (finished env w params resp).
    split; [apply (stored_new w (finished env w params resp))|].
    do 4 (split; [reflexivity|]).
    split; [apply lookup_ge_None; lia|].
    split; [apply new_trace_app; reflexivity|].
    repeat split.
  - intros Hfresh Hc Hu.
    rewrite (create_task_answered env self params w h resp Hfresh Hc Hh Hresp Hu).
    eexists _, _. reflexivity.
Qed.

Lemma create_task_completed_witness :
  ∃ r w' tk,
    TaskManager.create_task sample_env (manager (Some echo_handler)) (send_params "hi")
      empty_world = (Ok r, w') ∧
    stored w' "task-0" r tk ∧
    state (status tk) = COMPLETED ∧
    history tk = Some [text_message USER "hi"; text_message AGENT "Echo: hi"].
Proof.
  destruct (create_task_completed sample_env (manager (Some echo_handler))
              (send_params "hi") empty_world echo_handler
              (text_message AGENT "Echo: hi") eq_refl eq_refl) as [HB HA].
  destruct (HA eq_refl I I) as (r & w' & Hrun).
  destruct (HB r w' Hrun) as (tk0 & tk1 & tk & H1 & H2 & _ & H4 & _).
  exists r, w', tk. split; [exact Hrun|]. split; [exact H1|]. split; [exact H2 | exact H4].
Defined.

(** C5. When the handler raises [e]: a [create_task] call that reached the
    handler, and a [send_task_message] call on a stored task, raise
    [InternalErrorException] (code -32603) whose message carries [str e];
    the task is stored in state FAILED, that being the last write to the
    store, and the handler was called exactly once.  [create_task] reaches
    the handler whenever the id is unused and [on_task_created] returns. *)
Theorem handler_failure env self params (w : World) h e :
  TaskManager.on_message_received self = Some h →
  h (sp_message params) = Raises e →
  code (InternalErrorException ("Error processing task: " +:+ str e)) = Some (-32603) ∧
  (∀ res w',
     TaskManager.create_task env self params w = (res, w') →
     invocations (new_trace w w') ≠ [] →
     res = Raise (InternalErrorException ("Error processing task: " +:+ str e)) ∧
     ∃ r tk,
       stored w' (uuid4 env (uuid_draws w)) r tk ∧
       state (status tk) = FAILED ∧
       last (new_trace w w') = Some (Persisted UPDATE tk) ∧
       invocations (new_trace w w') = [sp_message params]) ∧
  (_tasks w !! uuid4 env (uuid_draws w) = None →
   hook_returns (TaskManager.on_task_created self) (submitted env w params) →
   invocations (new_trace w (snd (TaskManager.create_task env self params w)))
     = [sp_message params]) ∧
  (∀ tid r tk,
     stored w tid r tk →
     ∃ w' tk',
       TaskManager.send_task_message env self tid params w =
         (Raise (InternalErrorException ("Error processing task message: " +:+ str e)), w') ∧
       stored w' tid r tk' ∧
       state (status tk') = FAILED ∧
       last (new_trace w w') = Some (Persisted UPDATE tk') ∧
       invocations (new_trace w w') = [sp_message params]).
Proof.
  intros Hh He. split; [reflexivity|]. split; [|split].
  - intros res w' Hrun Hinv.
    destruct (_tasks w !! uuid4 env (uuid_draws w)) as [r0|] eqn:Hfresh.
    { rewrite (create_task_duplicate env self params w r0 Hfresh) in Hrun.
      injection Hrun as <- <-. exfalso. apply Hinv.
      unfold new_trace. cbn. rewrite drop_all. reflexivity. }
    destruct (hook_cases (TaskManager.on_task_created self) (submitted env w params))
      as [Hc | (f & e' & Hc & Hf)].
    + rewrite (create_task_broken env self params w h e Hfresh Hc Hh He) in Hrun.
      injection Hrun as <- <-. split; [reflexivity|].
      exists (length (objs w)), (crashed env w params).
      split; [apply (stored_new w (crashed env w params))|].
      split; [reflexivity|].
      erewrite new_trace_app by reflexivity. split; reflexivity.
    + rewrite (create_task_unannounced env self params w f e' Hfresh Hc Hf) in Hrun.
      injection Hrun as <- <-. exfalso. apply Hinv.
      erewrite new_trace_app by reflexivity. reflexivity.
  - intros Hfresh Hc.
    rewrite (create_task_broken env self params w h e Hfresh Hc Hh He).
    erewrite new_trace_app by reflexivity. reflexivity.
  - intros tid r tk Hs. pose proof Hs as (_ & _ & Hid).
    rewrite (send_task_message_broken env self w tid params r tk h e Hs Hh He).
    eexists _, (broken env w (sp_message params) tk).
    split; [reflexivity|].
    split; [eapply stored_after; [exact Hs | exact Hid]|].
    split; [reflexivity|].
    erewrite new_trace_app by reflexivity. split; reflexivity.
Qed.

Lemma handler_failure_witness :
  ∃ w' tk',
    TaskManager.send_task_message sample_env (manager (Some failing_handler)) "t1"
      (send_params "hi") (world_with (sample_task "t1" SUBMITTED None)) =
      (Raise (InternalErrorException "Error processing task message: boom"), w') ∧
    stored w' "t1" 0%nat tk' ∧
    state (status tk') = FAILED.
Proof.
  destruct (handler_failure sample_env (manager (Some failing_handler))
              (send_params "hi") (world_with (sample_task "t1" SUBMITTED None))
              failing_handler (Exception "boom") eq_refl eq_refl)
    as (_ & _ & _ & H).
  destruct (H "t1" 0%nat (sample_task "t1" SUBMITTED None))
    as (w' & tk' & H1 & H2 & H3 & _).
  - repeat split.
  - exists w', tk'. split; [exact H1|]. split; [exact H2 | exact H3].
Defined.

(** C9. Without a message handler, [create_task] (given an unused id and
    an [on_task_created] callback that returns) and [send_task_message] (on
    a stored task) return the task without raising: it is stored in state
    WORKING, its history holds the inbound message after whatever was there
    and no response, no terminal state was ever written and no handler was
    called.  [process_message] is the one that raises for the missing
    handler. *)
Theorem no_handler_leaves_working env self params (w : World) :
  TaskManager.on_message_received self = None →
  (_tasks w !! uuid4 env (uuid_draws w) = None →
   hook_returns (TaskManager.on_task_created self) (submitted env w params) →
   ∃ r w' tk,
     TaskManager.create_task env self params w = (Ok r, w') ∧
     stored w' (uuid4 env (uuid_draws w)) r tk ∧
     state (status tk) = WORKING ∧
     history tk = Some [sp_message params] ∧
     persisted_states (new_trace w w') = [SUBMITTED; WORKING] ∧
     invocations (new_trace w w') = []) ∧
  (∀ tid r tk,
     stored w tid r tk →
     ∃ w' tk',
       TaskManager.send_task_message env self tid params w = (Ok r, w') ∧
       stored w' tid r tk' ∧
       state (status tk') = WORKING ∧
       history tk' = Some (default [] (history tk) ++ [sp_message params]) ∧
       persisted_states (new_trace w w') = [WORKING] ∧
       invocations (new_trace w w') = []) ∧
  (∀ m,
     TaskManager.process_message self m w =
       (Raise (InternalErrorException "No message handler registered"), w)).
Proof.
  intros Hh. split; [|split].
  - intros Hfresh Hc.
    rewrite (create_task_no_handler env self params w Hfresh Hc Hh).
    eexists _, _, (started env w params).
    split; [reflexivity|]. split; [apply (stored_new w (started env w params))|].
    split; [reflexivity|]. split; [reflexivity|].
    erewrite new_trace_app by reflexivity. split; reflexivity.
  - intros tid r tk Hs. pose proof Hs as (_ & _ & Hid).
    rewrite (send_task_message_no_handler env self w tid params r tk Hs Hh).
    eexists _, (received env w (sp_message params) tk).
    split; [reflexivity|].
    split; [eapply stored_after; [exact Hs | exact Hid]|].
    split; [reflexivity|]. split; [reflexivity|].
    erewrite new_trace_app by reflexivity. split; reflexivity.
  - intros m. unfold TaskManager.process_message. rewrite Hh. reflexivity.
Qed.

Lemma no_handler_leaves_working_witness :
  ∃ r w' tk,
    TaskManager.create_task sample_env (manager None) (send_params "hi") empty_world
      = (Ok r, w') ∧
    stored w' "task-0" r tk ∧
    state (status tk) = WORKING.
Proof.
  destruct (no_handler_leaves_working sample_env (manager None) (send_params "hi")
              empty_world eq_refl) as (H & _ & _).
  destruct (H eq_refl I) as (r & w' & tk & H1 & H2 & H3 & _).
  exists r, w', tk. split; [exact H1|]. split; [exact H2 | exact H3].
Defined.

(** ** Cancelling and resubscribing *)

(** C6. On a stored task, [cancel_task] raises [TaskNotCancelableException]
    (code -32002) when the state is COMPLETED, FAILED or CANCELED, and
    changes nothing.  Otherwise it sets the task CANCELED and writes it to
    the store, and cancelling once more raises
    [TaskNotCancelableException]; the first call returns the task when the
    [on_task_canceled] callback, if one is set, returns.  With such a
    callback, then, [cancel_task] raises [TaskNotCancelableException]
    exactly when the state is one of the three. *)
Theorem cancel_task_spec env self (w : World) tid r tk :
  stored w tid r tk →
  code (TaskNotCancelableException tid) = Some (-32002) ∧
  (is_terminal (state (status tk)) = true →
   TaskManager.cancel_task env self tid w = (Raise (TaskNotCancelableException tid), w)) ∧
  (is_terminal (state (status tk)) = false →
   ∃ w1 tk1,
     snd (TaskManager.cancel_task env self tid w) = w1 ∧
     stored w1 tid r tk1 ∧
     state (status tk1) = CANCELED ∧
     new_trace w w1 = [Persisted UPDATE tk1] ∧
     TaskManager.cancel_task env self tid w1 =
       (Raise (TaskNotCancelableException tid), w1) ∧
     (hook_returns (TaskManager.on_task_canceled self) tk1 →
      fst (TaskManager.cancel_task env self tid w) = Ok r)) ∧
  (hook_returns (TaskManager.on_task_canceled self) (canceled env w tk) →
   (fst (TaskManager.cancel_task env self tid w) = Raise (TaskNotCancelableException tid)
    ↔ state (status tk) = COMPLETED ∨ state (status tk) = FAILED
      ∨ state (status tk) = CANCELED)).
Proof.
  intros Hs. pose proof Hs as (Hd & Ho & Hid).
  assert (Hret : hook_returns (TaskManager.on_task_canceled self) (canceled env w tk) →
                 is_terminal (state (status tk)) = false →
                 fst (TaskManager.cancel_task env self tid w) = Ok r).
  { intros Hh Ht. rewrite (cancel_task_run env self w tid r tk Hs Ht). cbn [fst].
    unfold hook_returns in Hh.
    destruct (TaskManager.on_task_canceled self) as [f|]; [|reflexivity].
    rewrite Hh. reflexivity. }
  split; [reflexivity|]. split; [|split].
  - apply (cancel_task_terminal env self w tid r tk Hd Ho).
  - intros Ht.
    exists (snd (TaskManager.cancel_task env self tid w)), (canceled env w tk).
    split; [reflexivity|].
    rewrite (cancel_task_run env self w tid r tk Hs Ht). cbn [snd].
    assert (Hst : stored
                    {| objs := <[r := canceled env w tk]> (objs w);
                       _tasks := _tasks w;
                       clock_reads := S (clock_reads w);
                       uuid_draws := uuid_draws w;
                       trace := trace w ++ [Persisted UPDATE (canceled env w tk)] |}
                    tid r (canceled env w tk))
      by (eapply stored_after; [exact Hs | exact Hid]).
    split; [exact Hst|]. split; [reflexivity|].
    split; [apply new_trace_app; reflexivity|].
    split.
    + destruct Hst as (Hd1 & Ho1 & _).
      apply (cancel_task_terminal env self _ tid r _ Hd1 Ho1). reflexivity.
    + intros Hh. rewrite <- (cancel_task_run env self w tid r tk Hs Ht).
      apply Hret; assumption.
  - intros Hh. rewrite <- is_terminal_spec.
    destruct (is_terminal (state (status tk))) eqn:Ht.
    + rewrite (cancel_task_terminal env self w tid r tk Hd Ho Ht). simpl. tauto.
    + rewrite (Hret Hh eq_refl). split; intros H; discriminate H.
Qed.

Lemma cancel_task_spec_witness :
  ∃ w1,
    TaskManager.cancel_task sample_env (manager None) "t1"
      (world_with (sample_task "t1" WORKING None)) = (Ok 0%nat, w1) ∧
    TaskManager.cancel_task sample_env (manager None) "t1" w1 =
      (Raise (TaskNotCancelableException "t1"), w1).
Proof.
  destruct (cancel_task_spec sample_env (manager None)
              (world_with (sample_task "t1" WORKING None)) "t1" 0%nat
              (sample_task "t1" WORKING None))
    as (_ & _ & H & _).
  - repeat split.
  - destruct (H eq_refl) as (w1 & tk1 & H0 & _ & _ & _ & H2 & H3).
    exists w1. split; [|exact H2].
    rewrite <- H0. rewrite (surjective_pairing (TaskManager.cancel_task _ _ _ _)).
    rewrite (H3 I). reflexivity.
Defined.

(** C8. On a stored task, [resubscribe_task] yields exactly one item: it
    carries the task's current status, its [final] flag is set exactly when
    the state is COMPLETED, FAILED or CANCELED, and neither the task nor the
    store is changed. *)
Theorem resubscribe_task_spec (w : World) tid r tk :
  _tasks w !! tid = Some r →
  objs w !! r = Some tk →
  ∃ w' e,
    TaskManager.resubscribe_task tid w = (Ok tt, w') ∧
    emitted (new_trace w w') = [e] ∧
    new_trace w w' = [Emitted e] ∧
    type e = "status_update" ∧
    ev_id (data e) = tid ∧
    ev_status (data e) = status tk ∧
    (final (data e) = true
     ↔ state (status tk) = COMPLETED ∨ state (status tk) = FAILED
       ∨ state (status tk) = CANCELED) ∧
    objs w' = objs w ∧
    _tasks w' = _tasks w.
Proof.
  intros Hd Ho.
  rewrite (resubscribe_task_run w tid r tk Hd Ho).
  eexists _, _. split; [reflexivity|].
  erewrite new_trace_app by reflexivity.
  repeat split; try reflexivity; apply is_terminal_spec.
Qed.

Lemma resubscribe_task_spec_witness :
  ∃ w' e,
    TaskManager.resubscribe_task "t1" (world_with (sample_task "t1" FAILED None))
      = (Ok tt, w') ∧
    emitted (new_trace (world_with (sample_task "t1" FAILED None)) w') = [e] ∧
    final (data e) = true.
Proof.
  destruct (resubscribe_task_spec (world_with (sample_task "t1" FAILED None))
              "t1" 0%nat (sample_task "t1" FAILED None))
    as (w' & e & H1 & H2 & _ & _ & _ & _ & H3 & _).
  - reflexivity.
  - reflexivity.
  - exists w', e. split; [exact H1|]. split; [exact H2|].
    apply H3. right. left. reflexivity.
Defined.

(** ** Streaming *)

(** C3, counterexample. Without a message handler the stream on a stored
    task ends normally after the single WORKING item, which is not final:
    no item of the stream is. *)
Lemma stream_without_handler_has_no_final_item :
  let w := world_with (sample_task "t1" SUBMITTED None) in
  let run := TaskManager.send_task_message_stream sample_env (manager None)
               "t1" (send_params "hi") w in
  fst run = Ok tt ∧
  is_final <$> emitted (new_trace w (snd run)) = [false] ∧
  ¬ one_final_last (emitted (new_trace w (snd run))).
Proof.
  split; [vm_compute; reflexivity|]. split; [vm_compute; reflexivity|].
  intros [H _]. vm_compute in H. discriminate H.
Qed.

(** C3 (amended). On a stored task with a message handler: if the handler
    returns (and the [on_task_updated] callback returns), the stream is the
    WORKING item followed by the COMPLETED item and ends normally; if the
    handler raises, the stream is the WORKING item followed by the FAILED
    item, and the iteration then raises [InternalErrorException].  In both
    cases exactly one item is final and it is the last one, carrying the
    status the task is stored with.  Without a handler the stream is the
    WORKING item alone, not final. *)
Theorem stream_final_item env self params (w : World) tid r tk :
  stored w tid r tk →
  (∀ h resp,
     TaskManager.on_message_received self = Some h →
     h (sp_message params) = Returns resp →
     hook_returns (TaskManager.on_task_updated self)
       (answered env w (sp_message params) resp tk) →
     ∃ w' tk',
       TaskManager.send_task_message_stream env self tid params w = (Ok tt, w') ∧
       emitted (new_trace w w') =
         [TaskManager.status_event tid (working env (clock_reads w)) false;
          TaskManager.status_event tid (completed env (S (clock_reads w)) resp) true] ∧
       one_final_last (emitted (new_trace w w')) ∧
       stored w' tid r tk' ∧
       status tk' = completed env (S (clock_reads w)) resp) ∧
  (∀ h e,
     TaskManager.on_message_received self = Some h →
     h (sp_message params) = Raises e →
     ∃ w' tk',
       TaskManager.send_task_message_stream env self tid params w =
         (Raise (InternalErrorException ("Error processing task message: " +:+ str e)), w') ∧
       emitted (new_trace w w') =
         [TaskManager.status_event tid (working env (clock_reads w)) false;
          TaskManager.status_event tid (failed env (S (clock_reads w))) true] ∧
       one_final_last (emitted (new_trace w w')) ∧
       stored w' tid r tk' ∧
       status tk' = failed env (S (clock_reads w))) ∧
  (TaskManager.on_message_received self = None →
   ∃ w',
     TaskManager.send_task_message_stream env self tid params w = (Ok tt, w') ∧
     emitted (new_trace w w') =
       [TaskManager.status_event tid (working env (clock_reads w)) false]).
Proof.
  intros Hs. pose proof Hs as (_ & _ & Hid). split; [|split].
  - intros h resp Hh Hresp Hu.
    rewrite (stream_answered env self w tid params r tk h resp Hs Hh Hresp Hu).
    eexists _, (answered env w (sp_message params) resp tk).
    split; [reflexivity|].
    erewrite new_trace_app by reflexivity.
    split; [reflexivity|]. split; [split; reflexivity|].
    split; [eapply stored_after; [exact Hs | exact Hid] | reflexivity].
  - intros h e Hh He.
    rewrite (stream_broken env self w tid params r tk h e Hs Hh He).
    eexists _, (broken env w (sp_message params) tk).
    split; [reflexivity|].
    erewrite new_trace_app by reflexivity.
    split; [reflexivity|]. split; [split; reflexivity|].
    split; [eapply stored_after; [exact Hs | exact Hid] | reflexivity].
  - intros Hh.
    rewrite (stream_no_handler env self w tid params r tk Hs Hh).
    eexists. split; [reflexivity|].
    erewrite new_trace_app by reflexivity. reflexivity.
Qed.

Lemma stream_final_item_witness :
  ∃ w' tk',
    TaskManager.send_task_message_stream sample_env (manager (Some failing_handler)) "t1"
      (send_params "hi") (world_with (sample_task "t1" SUBMITTED None)) =
      (Raise (InternalErrorException "Error processing task message: boom"), w') ∧
    emitted (new_trace (world_with (sample_task "t1" SUBMITTED None)) w') =
      [TaskManager.status_event "t1" (working sample_env 0) false;
       TaskManager.status_event "t1" (failed sample_env 1) true] ∧
    stored w' "t1" 0%nat tk' ∧
    state (status tk') = FAILED.
Proof.
  destruct (stream_final_item sample_env (manager (Some failing_handler))
              (send_params "hi") (world_with (sample_task "t1" SUBMITTED None))
              "t1" 0%nat (sample_task "t1" SUBMITTED None)) as (_ & H & _).
  - repeat split.
  - destruct (H failing_handler (Exception "boom") eq_refl eq_refl)
      as (w' & tk' & H1 & H2 & _ & H4 & H5).
    exists w', tk'. split; [exact H1|]. split; [exact H2|]. split; [exact H4|].
    rewrite H5. reflexivity.
Defined.

(** ** Terminal states *)

(** C1, counterexample. [send_task_message] on a stored FAILED task with
    the echo handler returns the task: it was written WORKING, then
    COMPLETED, and is left COMPLETED. *)
Lemma send_task_message_leaves_terminal_state :
  let w := world_with (sample_task "t1" FAILED None) in
  let run := TaskManager.send_task_message sample_env (manager (Some echo_handler))
               "t1" (send_params "again") w in
  stored w "t1" 0%nat (sample_task "t1" FAILED None) ∧
  is_terminal (state (status (sample_task "t1" FAILED None))) = true ∧
  fst run = Ok 0%nat ∧
  persisted_states (new_trace w (snd run)) = [WORKING; COMPLETED] ∧
  (λ tk, state (status tk)) <$> objs (snd run) !! 0%nat = Some COMPLETED.
Proof.
  vm_compute. repeat split.
Qed.

(** C1 (amended). For a stored task in a terminal state: [cancel_task]
    raises and changes nothing; [get_task], [resubscribe_task],
    [create_task] and [process_message] leave its status as it is;
    [send_task_message] and [send_task_message_stream] do not: they write
    the task WORKING and then the handler decides. With no handler the
    task is left WORKING; when the handler returns (and [on_task_updated],
    if set, returns) COMPLETED is written and the task is left COMPLETED
    with the response; when the handler raises, or [on_task_updated] raises
    on the COMPLETED task, the operation raises and the task is left
    FAILED. *)
Theorem terminal_state_frame env self (w : World) tid r tk :
  stored w tid r tk →
  is_terminal (state (status tk)) = true →
  TaskManager.cancel_task env self tid w = (Raise (TaskNotCancelableException tid), w) ∧
  (∀ params, q_id params = tid →
     ∃ w' tk',
       TaskManager.get_task params w = (Ok r, w') ∧
       objs w' !! r = Some tk' ∧ status tk' = status tk) ∧
  (∃ w', TaskManager.resubscribe_task tid w = (Ok tt, w') ∧ objs w' = objs w) ∧
  (∀ params, objs (snd (TaskManager.create_task env self params w)) !! r = Some tk) ∧
  (∀ m, objs (snd (TaskManager.process_message self m w)) = objs w) ∧
  (∀ params,
     reopened env self params tid r tk r w
       (TaskManager.send_task_message env self tid params w)) ∧
  (∀ params,
     reopened env self params tid r tk tt w
       (TaskManager.send_task_message_stream env self tid params w)).
Proof.
  intros Hs Ht. pose proof Hs as (Hd & Ho & Hid).
  assert (Hlt : (r < length (objs w))%nat) by (eapply lookup_lt_Some, Ho).
  split; [apply (cancel_task_terminal env self w tid r tk Hd Ho Ht)|].
  split.
  { intros params Hq. rewrite <- Hq in Hd.
    rewrite (get_task_run w params r tk Hd Ho).
    destruct (history_length params) as [n|];
      [| exists w, tk; repeat split; assumption ].
    destruct (history tk) as [[|m l]|];
      [ exists w, tk; repeat split; assumption
      |
      | exists w, tk; repeat split; assumption ].
    eexists _, (with_history (Some (slice_from (- n) (m :: l))) tk).
    split; [reflexivity|].
    split; [cbn; apply list_lookup_insert_eq, Hlt | reflexivity]. }
  split.
  { rewrite (resubscribe_task_run w tid r tk Hd Ho).
    eexists. split; reflexivity. }
  split.
  { intros params. destruct (create_task_heap env self params w) as [x ->].
    rewrite lookup_app_l by exact Hlt. exact Ho. }
  split; [intros m; apply process_message_heap|].
  split; intros params.
  - apply (send_task_message_reopens env self params w tid r tk Hs).
  - apply (stream_reopens env self params w tid r tk Hs).
Qed.

Lemma terminal_state_frame_witness :
  let w := world_with (sample_task "t1" COMPLETED None) in
  let self := manager (Some echo_handler) in
  let run := TaskManager.send_task_message sample_env self "t1" (send_params "again") w in
  TaskManager.cancel_task sample_env self "t1" w =
    (Raise (TaskNotCancelableException "t1"), w) ∧
  fst run = Ok 0%nat ∧
  persisted_states (new_trace w (snd run)) = [WORKING; COMPLETED] ∧
  ∃ tk', stored (snd run) "t1" 0%nat tk' ∧
         state (status tk') = COMPLETED ∧
         message (status tk') = Some (text_message AGENT "Echo: again").
Proof.
  intros w self run.
  destruct (terminal_state_frame sample_env self w "t1" 0%nat
              (sample_task "t1" COMPLETED None))
    as (H1 & _ & _ & _ & _ & H2 & _).
  - repeat split.
  - reflexivity.
  - split; [exact H1|].
    destruct (H2 (send_params "again")) as (_ & _ & H3 & _).
    apply (H3 echo_handler (text_message AGENT "Echo: again")).
    + reflexivity.
    + reflexivity.
    + exact I.
Defined.

(** * Further properties *)

(** ** The task store: rejections, size, other ids *)

(** X1. [create_task] on an id the store already holds raises [ValueError]
    and [update_task] on an id it does not hold raises
    [TaskNotFoundException]; in both cases nothing is filed: the world is
    unchanged, and the id still leads to the object it led to. *)
Theorem store_rejects (w : World) (task : ref) (tk : Task) :
  objs w !! task = Some tk →
  (∀ r0, _tasks w !! task_id tk = Some r0 →
     InMemoryTaskStore.create_task task w =
       (Raise (ValueError ("Task with ID " +:+ task_id tk +:+ " already exists")), w) ∧
     InMemoryTaskStore.get_task (task_id tk) w = (Ok r0, w)) ∧
  (_tasks w !! task_id tk = None →
     InMemoryTaskStore.update_task task w =
       (Raise (TaskNotFoundException (task_id tk)), w) ∧
     InMemoryTaskStore.task_exists (task_id tk) w = (Ok false, w)).
Proof.
  intros Ho. split.
  - intros r0 Hd. split.
    + unfold InMemoryTaskStore.create_task.
      rewrite (bind_ok _ _ _ _ _ (deref_run _ _ _ Ho)), Hd. reflexivity.
    + apply store_get_task_run, Hd.
  - intros Hd. split.
    + unfold InMemoryTaskStore.update_task.
      rewrite (bind_ok _ _ _ _ _ (deref_run _ _ _ Ho)), Hd. reflexivity.
    + unfold InMemoryTaskStore.task_exists. rewrite Hd.
      rewrite bool_decide_eq_false_2; [reflexivity|]. intros [x Hx]. discriminate Hx.
Qed.

Lemma store_rejects_witness :
  InMemoryTaskStore.create_task 0%nat (world_with (sample_task "t1" SUBMITTED None)) =
    (Raise (ValueError "Task with ID t1 already exists"),
     world_with (sample_task "t1" SUBMITTED None)).
Proof.
  destruct (store_rejects (world_with (sample_task "t1" SUBMITTED None)) 0%nat
              (sample_task "t1" SUBMITTED None) eq_refl) as [H _].
  destruct (H 0%nat eq_refl) as [H1 _]. exact H1.
Defined.

(** X2. [size] counts the ids: filing a task under a new id adds one,
    deleting a held id removes one, updating and deleting an absent id
    leave it, and after [clear] it is zero. *)
Theorem store_size (w : World) (task : ref) (tk : Task) :
  objs w !! task = Some tk →
  (_tasks w !! task_id tk = None →
     InMemoryTaskStore.size (snd (InMemoryTaskStore.create_task task w))
       = S (InMemoryTaskStore.size w)) ∧
  (is_Some (_tasks w !! task_id tk) →
     InMemoryTaskStore.size (snd (InMemoryTaskStore.update_task task w))
       = InMemoryTaskStore.size w ∧
     S (InMemoryTaskStore.size (snd (InMemoryTaskStore.delete_task (task_id tk) w)))
       = InMemoryTaskStore.size w) ∧
  (∀ tid, _tasks w !! tid = None →
     InMemoryTaskStore.size (snd (InMemoryTaskStore.delete_task tid w))
       = InMemoryTaskStore.size w) ∧
  InMemoryTaskStore.size (snd (InMemoryTaskStore.clear w)) = 0%nat.
Proof.
  intros Ho. unfold InMemoryTaskStore.size. split; [|split; [|split]].
  - intros Hd. rewrite (store_create_task_run w task tk Ho Hd). cbn [snd _tasks].
    apply map_size_insert_None, Hd.
  - intros [r0 Hd]. split.
    + rewrite (update_task_run w task tk r0 Ho Hd). cbn [snd _tasks].
      apply map_size_insert_Some. eauto.
    + unfold InMemoryTaskStore.delete_task. rewrite Hd. cbn [snd _tasks set_tasks].
      rewrite map_size_delete_Some by eauto.
      assert (size (_tasks w) ≠ 0%nat) by (eapply map_size_ne_0_lookup_2; eauto).
      lia.
  - intros tid Hd. unfold InMemoryTaskStore.delete_task. rewrite Hd. reflexivity.
  - cbn. apply map_size_empty.
Qed.

Lemma store_size_witness :
  InMemoryTaskStore.size
    (snd (InMemoryTaskStore.create_task 0%nat
            (set_objs [sample_task "t1" SUBMITTED None] empty_world))) = 1%nat.
Proof.
  destruct (store_size (set_objs [sample_task "t1" SUBMITTED None] empty_world) 0%nat
              (sample_task "t1" SUBMITTED None) eq_refl) as [H _].
  rewrite (H eq_refl). reflexivity.
Defined.

Lemma get_task_lookup (w w' : World) (b : string) :
  _tasks w' !! b = _tasks w !! b →
  fst (InMemoryTaskStore.get_task b w') = fst (InMemoryTaskStore.get_task b w).
Proof.
  intros H. unfold InMemoryTaskStore.get_task. rewrite H.
  destruct (_tasks w !! b); reflexivity.
Qed.

(** X3. Filing, updating or deleting a task leaves every other id as it
    was ([get_task] on another id answers as before), and no store
    operation touches a task object. *)
Theorem store_other_ids (w : World) (task : ref) (tk : Task) (b : string) :
  objs w !! task = Some tk →
  task_id tk ≠ b →
  (fst (InMemoryTaskStore.get_task b (snd (InMemoryTaskStore.create_task task w)))
     = fst (InMemoryTaskStore.get_task b w) ∧
   objs (snd (InMemoryTaskStore.create_task task w)) = objs w) ∧
  (fst (InMemoryTaskStore.get_task b (snd (InMemoryTaskStore.update_task task w)))
     = fst (InMemoryTaskStore.get_task b w) ∧
   objs (snd (InMemoryTaskStore.update_task task w)) = objs w) ∧
  (fst (InMemoryTaskStore.get_task b (snd (InMemoryTaskStore.delete_task (task_id tk) w)))
     = fst (InMemoryTaskStore.get_task b w) ∧
   objs (snd (InMemoryTaskStore.delete_task (task_id tk) w)) = objs w).
Proof.
  intros Ho Hne. split; [|split].
  - unfold InMemoryTaskStore.create_task.
    rewrite (bind_ok _ _ _ _ _ (deref_run _ _ _ Ho)).
    destruct (_tasks w !! task_id tk); [split; reflexivity|].
    split; [|reflexivity]. apply get_task_lookup. cbn. apply lookup_insert_ne, Hne.
  - unfold InMemoryTaskStore.update_task.
    rewrite (bind_ok _ _ _ _ _ (deref_run _ _ _ Ho)).
    destruct (_tasks w !! task_id tk); [|split; reflexivity].
    split; [|reflexivity]. apply get_task_lookup. cbn. apply lookup_insert_ne, Hne.
  - unfold InMemoryTaskStore.delete_task.
    destruct (_tasks w !! task_id tk); [|split; reflexivity].
    split; [|reflexivity]. apply get_task_lookup. cbn. apply lookup_delete_ne, Hne.
Qed.

Lemma store_other_ids_witness :
  fst (InMemoryTaskStore.get_task "t1"
         (snd (InMemoryTaskStore.delete_task "t2"
                 (set_objs [sample_task "t1" WORKING None; sample_task "t2" WORKING None]
                    (world_with (sample_task "t1" WORKING None))))))
  = Ok 0%nat.
Proof.
  destruct (store_other_ids
              (set_objs [sample_task "t1" WORKING None; sample_task "t2" WORKING None]
                 (world_with (sample_task "t1" WORKING None)))
              1%nat (sample_task "t2" WORKING None) "t1" eq_refl)
    as (_ & _ & H & _).
  - discriminate.
  - refine (eq_trans H _). reflexivity.
Defined.

(** X4. [clear] empties the store and leaves the task objects alone:
    afterwards no id exists, [get_task] fails for every id, and whoever
    holds a reference still finds the object behind it. *)
Theorem clear_forgets_every_id (w : World) (tid : string) :
  ∃ w',
    InMemoryTaskStore.clear w = (Ok tt, w') ∧
    InMemoryTaskStore.task_exists tid w' = (Ok false, w') ∧
    InMemoryTaskStore.get_task tid w' = (Raise (TaskNotFoundException tid), w') ∧
    InMemoryTaskStore.delete_task tid w' = (Ok false, w') ∧
    InMemoryTaskStore.list_tasks None w' = (Ok [], w') ∧
    InMemoryTaskStore.size w' = 0%nat ∧
    objs w' = objs w.
Proof.
  eexists. split; [reflexivity|].
  unfold InMemoryTaskStore.task_exists, InMemoryTaskStore.get_task,
    InMemoryTaskStore.delete_task, InMemoryTaskStore.list_tasks, InMemoryTaskStore.size.
  cbn [_tasks set_tasks objs]. rewrite lookup_empty, map_to_list_empty, map_size_empty.
  repeat split.
Qed.

Lemma select_session_run (s : string) (tasks : list ref) (w : World) :
  (∀ r, r ∈ tasks → is_Some (objs w !! r)) →
  InMemoryTaskStore.select_session s tasks w =
    (Ok (List.filter
           (λ r, match objs w !! r with
                 | Some tk => bool_decide (session_id tk = Some s)
                 | None => false
                 end) tasks), w).
Proof.
  induction tasks as [|r rest IH]; intros Hall; [reflexivity|].
  destruct (Hall r) as [tk Ho]; [left|].
  cbn [InMemoryTaskStore.select_session List.filter].
  rewrite (bind_ok _ _ _ _ _ (deref_run _ _ _ Ho)).
  rewrite (bind_ok _ _ _ _ _ (IH (λ r' Hr', Hall r' (list_elem_of_further _ _ _ Hr')))).
  rewrite Ho. unfold ret.
  destruct (decide (session_id tk = Some s)) as [Hs|Hs].
  - rewrite bool_decide_eq_true_2 by exact Hs. reflexivity.
  - rewrite bool_decide_eq_false_2 by exact Hs. reflexivity.
Qed.

(** X5. In a consistent store, [list_tasks] changes nothing and returns,
    without a session id, one entry per id (as many as [size]), and with a
    session id exactly the stored tasks whose [session_id] equals it. *)
Theorem list_tasks_members (w : World) :
  consistent w →
  (∃ l, InMemoryTaskStore.list_tasks None w = (Ok l, w) ∧
        length l = InMemoryTaskStore.size w ∧
        ∀ r, r ∈ l ↔ ∃ k, _tasks w !! k = Some r) ∧
  (∀ s, ∃ l, InMemoryTaskStore.list_tasks (Some s) w = (Ok l, w) ∧
        (length l ≤ InMemoryTaskStore.size w)%nat ∧
        ∀ r, r ∈ l ↔
             ∃ k tk, _tasks w !! k = Some r ∧ objs w !! r = Some tk ∧
                     session_id tk = Some s).
Proof.
  intros Hc.
  assert (Hmem : ∀ r, r ∈ (map_to_list (_tasks w)).*2 ↔ ∃ k, _tasks w !! k = Some r).
  { intros r. rewrite list_elem_of_fmap. split.
    - intros ([k r'] & -> & Hin). exists k. apply elem_of_map_to_list, Hin.
    - intros [k Hk]. exists (k, r). split; [reflexivity|].
      apply elem_of_map_to_list, Hk. }
  assert (Hlen : length (map_to_list (_tasks w)).*2 = InMemoryTaskStore.size w).
  { rewrite length_fmap. apply length_map_to_list. }
  split.
  - eexists. split; [reflexivity|]. split; [exact Hlen | exact Hmem].
  - intros s. eexists. split.
    + unfold InMemoryTaskStore.list_tasks. apply select_session_run.
      intros r Hr. apply Hmem in Hr as [k Hk].
      destruct (Hc k r Hk) as (tk & Ho & _). eauto.
    + split.
      * rewrite <- Hlen. apply List.filter_length_le.
      * intros r. rewrite list_elem_of_In, filter_In, <- list_elem_of_In, Hmem. split.
        -- intros [[k Hk] Hb]. destruct (objs w !! r) as [tk|] eqn:Ho; [|discriminate Hb].
           exists k, tk. split; [exact Hk|]. split; [reflexivity|].
           eapply bool_decide_eq_true_1. exact Hb.
        -- intros (k & tk & Hk & Ho & Hs). split; [eauto|].
           rewrite Ho. apply bool_decide_eq_true_2, Hs.
Qed.

Lemma three_tasks_consistent : consistent three_tasks.
Proof.
  intros k r Hk. unfold three_tasks in Hk. cbn [_tasks] in Hk.
  apply lookup_insert_Some in Hk as [[<- <-] | [_ Hk]]; [eexists; split; reflexivity|].
  apply lookup_insert_Some in Hk as [[<- <-] | [_ Hk]]; [eexists; split; reflexivity|].
  apply lookup_singleton_Some in Hk as [<- <-]. eexists; split; reflexivity.
Qed.

Lemma list_tasks_members_witness :
  ∃ l, InMemoryTaskStore.list_tasks (Some "session-1") three_tasks = (Ok l, three_tasks) ∧
       (0%nat ∈ l ∧ 1%nat ∈ l ∧ 2%nat ∉ l).
Proof.
  destruct (list_tasks_members three_tasks three_tasks_consistent) as [_ H].
  destruct (H "session-1") as (l & H1 & _ & H3).
  exists l. split; [exact H1|]. split; [|split].
  - apply H3. exists "task-1", (session_task "task-1" "session-1"). repeat split.
  - apply H3. exists "task-2", (session_task "task-2" "session-1"). repeat split.
  - intros Hin. apply H3 in Hin as (k & tk & _ & Ho & Hs).
    injection Ho as <-. discriminate Hs.
Defined.

(** ** The manager: unknown ids, and what every operation keeps *)

Lemma absent_run env self (w : World) tid :
  _tasks w !! tid = None →
  (∀ params, q_id params = tid →
     TaskManager.get_task params w = (Raise (TaskNotFoundException tid), w)) ∧
  (∀ params,
     TaskManager.send_task_message env self tid params w =
       (Raise (TaskNotFoundException tid), w)) ∧
  (∀ params,
     TaskManager.send_task_message_stream env self tid params w =
       (Raise (TaskNotFoundException tid), w)) ∧
  TaskManager.cancel_task env self tid w = (Raise (TaskNotFoundException tid), w) ∧
  TaskManager.resubscribe_task tid w = (Raise (TaskNotFoundException tid), w).
Proof.
  intros Hd.
  assert (Hg : InMemoryTaskStore.get_task tid w = (Raise (TaskNotFoundException tid), w)).
  { unfold InMemoryTaskStore.get_task. rewrite Hd. reflexivity. }
  split; [|split; [|split; [|split]]].
  - intros params <-. apply bind_raise, Hg.
  - intros params. apply bind_raise, Hg.
  - intros params. apply bind_raise, Hg.
  - apply bind_raise, Hg.
  - apply bind_raise, Hg.
Qed.

(** X6. On an id the store does not hold, [get_task], [send_task_message],
    [send_task_message_stream], [cancel_task] and [resubscribe_task] raise
    [TaskNotFoundException] (code -32001, "Task not found: <id>") and do
    nothing else: no write, no handler call, no item, not even a clock
    reading. *)
Theorem unknown_id_raises env self (w : World) tid :
  _tasks w !! tid = None →
  code (TaskNotFoundException tid) = Some (-32001) ∧
  str (TaskNotFoundException tid) = "Task not found: " +:+ tid ∧
  (∀ params, q_id params = tid →
     TaskManager.get_task params w = (Raise (TaskNotFoundException tid), w)) ∧
  (∀ params,
     TaskManager.send_task_message env self tid params w =
       (Raise (TaskNotFoundException tid), w)) ∧
  (∀ params,
     TaskManager.send_task_message_stream env self tid params w =
       (Raise (TaskNotFoundException tid), w)) ∧
  TaskManager.cancel_task env self tid w = (Raise (TaskNotFoundException tid), w) ∧
  TaskManager.resubscribe_task tid w = (Raise (TaskNotFoundException tid), w).
Proof.
  intros Hd. split; [reflexivity|]. split; [reflexivity|].
  apply (absent_run env self w tid Hd).
Qed.

Lemma unknown_id_raises_witness :
  TaskManager.cancel_task sample_env (manager (Some echo_handler)) "nowhere" empty_world =
    (Raise (TaskNotFoundException "nowhere"), empty_world).
Proof.
  destruct (unknown_id_raises sample_env (manager (Some echo_handler)) empty_world
              "nowhere" eq_refl) as (_ & _ & _ & _ & _ & H & _).
  exact H.
Defined.

(** *** Every path through an operation *)

(** The four paths of [send_task_message] on a stored task. *)
Ltac send_paths env self w tid params r tk Hs :=
  let h := fresh "h" in
  let Hh := fresh "Hh" in
  let resp := fresh "resp" in
  let e := fresh "e" in
  let Hresp := fresh "Hresp" in
  let Hu := fresh "Hu" in
  let f := fresh "f" in
  let e' := fresh "e'" in
  let Hf := fresh "Hf" in
  destruct (TaskManager.on_message_received self) as [h|] eqn:Hh;
  [ destruct (h (sp_message params)) as [resp|e] eqn:Hresp;
    [ destruct (hook_cases (TaskManager.on_task_updated self)
                  (answered env w (sp_message params) resp tk))
        as [Hu | (f & e' & Hu & Hf)];
      [ rewrite (send_task_message_answered env self w tid params r tk h resp
                   Hs Hh Hresp Hu)
      | rewrite (send_task_message_soured env self w tid params r tk h resp f e'
                   Hs Hh Hresp Hu Hf) ]
    | rewrite (send_task_message_broken env self w tid params r tk h e Hs Hh Hresp) ]
  | rewrite (send_task_message_no_handler env self w tid params r tk Hs Hh) ].

(** The four paths of [send_task_message_stream] on a stored task. *)
Ltac stream_paths env self w tid params r tk Hs :=
  let h := fresh "h" in
  let Hh := fresh "Hh" in
  let resp := fresh "resp" in
  let e := fresh "e" in
  let Hresp := fresh "Hresp" in
  let Hu := fresh "Hu" in
  let f := fresh "f" in
  let e' := fresh "e'" in
  let Hf := fresh "Hf" in
  destruct (TaskManager.on_message_received self) as [h|] eqn:Hh;
  [ destruct (h (sp_message params)) as [resp|e] eqn:Hresp;
    [ destruct (hook_cases (TaskManager.on_task_updated self)
                  (answered env w (sp_message params) resp tk))
        as [Hu | (f & e' & Hu & Hf)];
      [ rewrite (stream_answered env self w tid params r tk h resp Hs Hh Hresp Hu)
      | rewrite (stream_soured env self w tid params r tk h resp f e'
                   Hs Hh Hresp Hu Hf) ]
    | rewrite (stream_broken env self w tid params r tk h e Hs Hh Hresp) ]
  | rewrite (stream_no_handler env self w tid params r tk Hs Hh) ].

(** The six paths of [create_task]. *)
Ltac create_paths env self params w :=
  let r0 := fresh "r0" in
  let Hfresh := fresh "Hfresh" in
  let Hc := fresh "Hc" in
  let h := fresh "h" in
  let Hh := fresh "Hh" in
  let resp := fresh "resp" in
  let e := fresh "e" in
  let Hresp := fresh "Hresp" in
  let Hu := fresh "Hu" in
  let f := fresh "f" in
  let e' := fresh "e'" in
  let Hf := fresh "Hf" in
  destruct (_tasks w !! uuid4 env (uuid_draws w)) as [r0|] eqn:Hfresh;
  [ rewrite (create_task_duplicate env self params w r0 Hfresh)
  | destruct (hook_cases (TaskManager.on_task_created self) (submitted env w params))
      as [Hc | (f & e' & Hc & Hf)];
    [ destruct (TaskManager.on_message_received self) as [h|] eqn:Hh;
      [ destruct (h (sp_message params)) as [resp|e] eqn:Hresp;
        [ destruct (hook_cases (TaskManager.on_task_updated self)
                      (finished env w params resp))
            as [Hu | (f & e' & Hu & Hf)];
          [ rewrite (create_task_answered env self params w h resp Hfresh Hc Hh Hresp Hu)
          | rewrite (create_task_spoiled env self params w h resp f e'
                       Hfresh Hc Hh Hresp Hu Hf) ]
        | rewrite (create_task_broken env self params w h e Hfresh Hc Hh Hresp) ]
      | rewrite (create_task_no_handler env self params w Hfresh Hc Hh) ]
    | rewrite (create_task_unannounced env self params w f e' Hfresh Hc Hf) ] ].

Lemma consistent_stored (w : World) tid r :
  consistent w → _tasks w !! tid = Some r → ∃ tk, stored w tid r tk.
Proof.
  intros Hc Hd. destruct (Hc tid r Hd) as (tk & Ho & Hid).
  exists tk. split; [exact Hd|]. split; [exact Ho | exact Hid].
Qed.

Lemma consistent_write (w : World) r tk tk' c u tr :
  consistent w → objs w !! r = Some tk → task_id tk' = task_id tk →
  consistent {| objs := <[r := tk']> (objs w); _tasks := _tasks w;
                clock_reads := c; uuid_draws := u; trace := tr |}.
Proof.
  intros Hc Ho Hid k r0 Hk. cbn [_tasks objs] in *.
  destruct (Hc k r0 Hk) as (tk0 & Ho0 & Hid0).
  destruct (decide (r0 = r)) as [->|Hne].
  - exists tk'. split.
    + apply list_lookup_insert_eq. eapply lookup_lt_Some, Ho.
    + rewrite Ho in Ho0. injection Ho0 as <-. congruence.
  - exists tk0. split; [|exact Hid0].
    rewrite list_lookup_insert_ne by congruence. exact Ho0.
Qed.

Lemma consistent_orphan (w : World) x c u tr :
  consistent w →
  consistent {| objs := objs w ++ [x]; _tasks := _tasks w;
                clock_reads := c; uuid_draws := u; trace := tr |}.
Proof.
  intros Hc k r0 Hk. cbn [_tasks objs] in *.
  destruct (Hc k r0 Hk) as (tk0 & Ho0 & Hid0).
  exists tk0. split; [|exact Hid0].
  rewrite lookup_app_l by (eapply lookup_lt_Some, Ho0). exact Ho0.
Qed.

Lemma consistent_new (w : World) x c u tr :
  consistent w →
  consistent {| objs := objs w ++ [x];
                _tasks := <[task_id x := length (objs w)]> (_tasks w);
                clock_reads := c; uuid_draws := u; trace := tr |}.
Proof.
  intros Hc k r0 Hk. cbn [_tasks objs] in *.
  apply lookup_insert_Some in Hk as [[<- <-] | [_ Hk]].
  - exists x. split; [apply lookup_last | reflexivity].
  - destruct (Hc k r0 Hk) as (tk0 & Ho0 & Hid0).
    exists tk0. split; [|exact Hid0].
    rewrite lookup_app_l by (eapply lookup_lt_Some, Ho0). exact Ho0.
Qed.

Lemma consistent_fields (w : World) c u tr :
  consistent w →
  consistent {| objs := objs w; _tasks := _tasks w;
                clock_reads := c; uuid_draws := u; trace := tr |}.
Proof. intros Hc k r0 Hk. exact (Hc k r0 Hk). Qed.

(** X7. Consistency of the store (every id leads to a task object that
    carries this id) holds of the empty store and is kept by every
    operation of the store and of the manager, on every path: whether the
    id is known or not, whether the handler and the callbacks return or
    raise. *)
Theorem consistency_is_kept env self (w : World) :
  consistent empty_world ∧
  (consistent w →
   (∀ task tk, objs w !! task = Some tk →
      consistent (snd (InMemoryTaskStore.create_task task w)) ∧
      consistent (snd (InMemoryTaskStore.update_task task w))) ∧
   (∀ tid, consistent (snd (InMemoryTaskStore.delete_task tid w))) ∧
   consistent (snd (InMemoryTaskStore.clear w)) ∧
   (∀ params, consistent (snd (TaskManager.create_task env self params w))) ∧
   (∀ params, consistent (snd (TaskManager.get_task params w))) ∧
   (∀ tid params, consistent (snd (TaskManager.send_task_message env self tid params w))) ∧
   (∀ tid params,
      consistent (snd (TaskManager.send_task_message_stream env self tid params w))) ∧
   (∀ tid, consistent (snd (TaskManager.cancel_task env self tid w))) ∧
   (∀ tid, consistent (snd (TaskManager.resubscribe_task tid w))) ∧
   (∀ m, consistent (snd (TaskManager.process_message self m w)))).
Proof.
  split.
  { intros k r Hk. cbn in Hk. rewrite lookup_empty in Hk. discriminate Hk. }
  intros Hc.
  split.
  { intros task tk Ho. split.
    - unfold InMemoryTaskStore.create_task.
      rewrite (bind_ok _ _ _ _ _ (deref_run _ _ _ Ho)).
      destruct (_tasks w !! task_id tk); [exact Hc|].
      intros k r0 Hk. cbn in Hk |- *.
      apply lookup_insert_Some in Hk as [[<- <-] | [_ Hk]]; [eauto | exact (Hc k r0 Hk)].
    - unfold InMemoryTaskStore.update_task.
      rewrite (bind_ok _ _ _ _ _ (deref_run _ _ _ Ho)).
      destruct (_tasks w !! task_id tk); [|exact Hc].
      intros k r0 Hk. cbn in Hk |- *.
      apply lookup_insert_Some in Hk as [[<- <-] | [_ Hk]]; [eauto | exact (Hc k r0 Hk)]. }
  split.
  { intros tid. unfold InMemoryTaskStore.delete_task.
    destruct (_tasks w !! tid); [|exact Hc].
    intros k r0 Hk. cbn in Hk |- *.
    apply lookup_delete_Some in Hk as [_ Hk]. exact (Hc k r0 Hk). }
  split.
  { intros k r0 Hk. cbn in Hk. rewrite lookup_empty in Hk. discriminate Hk. }
  split.
  { intros params. create_paths env self params w; cbn [snd];
      first [ apply consistent_orphan, Hc
            | apply (consistent_new w (submitted env w params)), Hc
            | apply (consistent_new w (started env w params)), Hc
            | apply (consistent_new w (finished env w params _)), Hc
            | apply (consistent_new w (spoiled env w params _)), Hc
            | apply (consistent_new w (crashed env w params)), Hc ]. }
  split.
  { intros params.
    destruct (_tasks w !! q_id params) as [r|] eqn:Hd.
    - destruct (consistent_stored w _ r Hc Hd) as (tk & _ & Ho & _).
      rewrite (get_task_run w params r tk Hd Ho). cbn [snd].
      destruct (history_length params) as [n|]; [|exact Hc].
      destruct (history tk) as [[|m l]|]; try exact Hc.
      destruct w. eapply consistent_write; [exact Hc | exact Ho | reflexivity].
    - destruct (absent_run env self w _ Hd) as (H & _). rewrite (H params eq_refl).
      exact Hc. }
  split.
  { intros tid params.
    destruct (_tasks w !! tid) as [r|] eqn:Hd.
    - destruct (consistent_stored w _ r Hc Hd) as (tk & Hs). pose proof Hs as (_ & Ho & _).
      send_paths env self w tid params r tk Hs; cbn [snd];
        (eapply consistent_write; [exact Hc | exact Ho | reflexivity]).
    - destruct (absent_run env self w _ Hd) as (_ & H & _). rewrite (H params). exact Hc. }
  split.
  { intros tid params.
    destruct (_tasks w !! tid) as [r|] eqn:Hd.
    - destruct (consistent_stored w _ r Hc Hd) as (tk & Hs). pose proof Hs as (_ & Ho & _).
      stream_paths env self w tid params r tk Hs; cbn [snd];
        (eapply consistent_write; [exact Hc | exact Ho | reflexivity]).
    - destruct (absent_run env self w _ Hd) as (_ & _ & H & _). rewrite (H params).
      exact Hc. }
  split.
  { intros tid.
    destruct (_tasks w !! tid) as [r|] eqn:Hd.
    - destruct (consistent_stored w _ r Hc Hd) as (tk & Hs). pose proof Hs as (_ & Ho & _).
      destruct (is_terminal (state (status tk))) eqn:Ht.
      + rewrite (cancel_task_terminal env self w tid r tk Hd Ho Ht). exact Hc.
      + rewrite (cancel_task_run env self w tid r tk Hs Ht). cbn [snd].
        eapply consistent_write; [exact Hc | exact Ho | reflexivity].
    - destruct (absent_run env self w _ Hd) as (_ & _ & _ & H & _). rewrite H. exact Hc. }
  split.
  { intros tid.
    destruct (_tasks w !! tid) as [r|] eqn:Hd.
    - destruct (consistent_stored w _ r Hc Hd) as (tk & _ & Ho & _).
      rewrite (resubscribe_task_run w tid r tk Hd Ho). cbn [snd].
      apply consistent_fields, Hc.
    - destruct (absent_run env self w _ Hd) as (_ & _ & _ & _ & H). rewrite H. exact Hc. }
  intros m k r0 Hk.
  assert (Ht : _tasks (snd (TaskManager.process_message self m w)) = _tasks w).
  { unfold TaskManager.process_message.
    destruct (TaskManager.on_message_received self) as [h|]; [|reflexivity].
    unfold try_except, TaskManager.invoke, bind, log, call, raise.
    destruct (h m); reflexivity. }
  rewrite Ht in Hk. rewrite process_message_heap. exact (Hc k r0 Hk).
Qed.

Lemma consistency_is_kept_witness :
  consistent
    (snd (TaskManager.send_task_message sample_env (manager (Some echo_handler)) "task-0"
            (send_params "again")
            (snd (TaskManager.create_task sample_env (manager (Some echo_handler))
                    (send_params "hi") empty_world)))).
Proof.
  destruct (consistency_is_kept sample_env (manager (Some echo_handler)) empty_world)
    as [H0 H].
  destruct (H H0) as (_ & _ & _ & Hcreate & _).
  destruct (consistency_is_kept sample_env (manager (Some echo_handler))
              (snd (TaskManager.create_task sample_env (manager (Some echo_handler))
                      (send_params "hi") empty_world))) as [_ H'].
  destruct (H' (Hcreate (send_params "hi"))) as (_ & _ & _ & _ & _ & Hsend & _).
  apply Hsend.
Defined.

(** ** Sending a message: what is kept, what is touched *)

Lemma only_changes_write (w : World) r tk' c tr :
  only_changes r w {| objs := <[r := tk']> (objs w); _tasks := _tasks w;
                      clock_reads := c; uuid_draws := uuid_draws w; trace := tr |}.
Proof.
  split; [reflexivity|]. split; [reflexivity|]. split; [apply length_insert|].
  intros r' Hne. cbn. apply list_lookup_insert_ne. congruence.
Qed.

Lemma only_changes_refl (r : ref) (w : World) : only_changes r w w.
Proof. repeat split. Qed.

(** X8. [send_task_message] and [send_task_message_stream] only ever add to
    the history of the stored task: on every path the earlier entries stay
    in place, the inbound message follows them, and the handler's response
    follows it exactly when the handler returned one.  Id, session id,
    artifacts and metadata of the task are left as they were. *)
Theorem sending_appends_to_history env self params (w : World) tid r tk :
  stored w tid r tk →
  ∃ tk1 tk2,
    stored (snd (TaskManager.send_task_message env self tid params w)) tid r tk1 ∧
    appended self params tk tk1 ∧
    stored (snd (TaskManager.send_task_message_stream env self tid params w)) tid r tk2 ∧
    appended self params tk tk2.
Proof.
  intros Hs. pose proof Hs as (Hd & Ho & Hid).
  assert (H1 : ∃ tk1,
             stored (snd (TaskManager.send_task_message env self tid params w)) tid r tk1 ∧
             appended self params tk tk1).
  { unfold appended.
    send_paths env self w tid params r tk Hs; cbn [snd]; eexists;
      (split; [eapply stored_after; [exact Hs | exact Hid]|]);
      (split; [repeat split|]); cbn; rewrite <- ?app_assoc; reflexivity. }
  assert (H2 : ∃ tk2,
             stored (snd (TaskManager.send_task_message_stream env self tid params w))
               tid r tk2 ∧
             appended self params tk tk2).
  { unfold appended.
    stream_paths env self w tid params r tk Hs; cbn [snd]; eexists;
      (split; [eapply stored_after; [exact Hs | exact Hid]|]);
      (split; [repeat split|]); cbn; rewrite <- ?app_assoc; reflexivity. }
  destruct H1 as (tk1 & H1 & H1'), H2 as (tk2 & H2 & H2').
  exists tk1, tk2. auto.
Qed.

Lemma sending_appends_to_history_witness :
  ∃ tk',
    stored (snd (TaskManager.send_task_message sample_env (manager (Some echo_handler))
                   "t1" (send_params "more") (world_with two_entries))) "t1" 0%nat tk' ∧
    history tk' =
      Some [text_message USER "first"; text_message AGENT "second";
            text_message USER "more"; text_message AGENT "Echo: more"].
Proof.
  destruct (sending_appends_to_history sample_env (manager (Some echo_handler))
              (send_params "more") (world_with two_entries) "t1" 0%nat two_entries)
    as (tk1 & _ & H1 & (_ & H2) & _).
  - repeat split.
  - exists tk1. split; [exact H1 | exact H2].
Defined.

(** X9. [get_task], [send_task_message], [send_task_message_stream] and
    [cancel_task] on a stored task touch that task only: on every path the
    dictionary of the store, the number of task objects and every other
    task object are as before. *)
Theorem operations_touch_one_task env self (w : World) tid r tk :
  stored w tid r tk →
  (∀ params, q_id params = tid →
     only_changes r w (snd (TaskManager.get_task params w))) ∧
  (∀ params,
     only_changes r w (snd (TaskManager.send_task_message env self tid params w))) ∧
  (∀ params,
     only_changes r w (snd (TaskManager.send_task_message_stream env self tid params w))) ∧
  only_changes r w (snd (TaskManager.cancel_task env self tid w)).
Proof.
  intros Hs. pose proof Hs as (Hd & Ho & Hid).
  split; [|split; [|split]].
  - intros params Hq. rewrite <- Hq in Hd.
    rewrite (get_task_run w params r tk Hd Ho). cbn [snd].
    destruct (history_length params) as [n|]; [|apply only_changes_refl].
    destruct (history tk) as [[|m l]|]; try apply only_changes_refl.
    destruct w. apply only_changes_write.
  - intros params.
    send_paths env self w tid params r tk Hs; cbn [snd]; apply only_changes_write.
  - intros params.
    stream_paths env self w tid params r tk Hs; cbn [snd]; apply only_changes_write.
  - destruct (is_terminal (state (status tk))) eqn:Ht.
    + rewrite (cancel_task_terminal env self w tid r tk Hd Ho Ht). apply only_changes_refl.
    + rewrite (cancel_task_run env self w tid r tk Hs Ht). cbn [snd].
      apply only_changes_write.
Qed.

Lemma operations_touch_one_task_witness :
  objs (snd (TaskManager.cancel_task sample_env (manager None) "t1" two_tasks)) !! 1%nat
  = Some (sample_task "t2" WORKING None).
Proof.
  destruct (operations_touch_one_task sample_env (manager None) two_tasks "t1" 0%nat
              (sample_task "t1" WORKING None)) as (_ & _ & _ & (_ & _ & _ & H)).
  - repeat split.
  - rewrite (H 1%nat); [reflexivity | discriminate].
Defined.

(** X10. The streaming and the plain variant of sending a message do the
    same to the store: on every path they leave the same task objects, the
    same dictionary and the same clock, write the same states in the same
    order, call the handler the same number of times, and either both
    return or both raise the same exception. *)
Theorem stream_agrees_with_send env self params (w : World) tid r tk :
  stored w tid r tk →
  let plain := TaskManager.send_task_message env self tid params w in
  let streamed := TaskManager.send_task_message_stream env self tid params w in
  objs (snd streamed) = objs (snd plain) ∧
  _tasks (snd streamed) = _tasks (snd plain) ∧
  clock_reads (snd streamed) = clock_reads (snd plain) ∧
  persisted_states (new_trace w (snd streamed)) = persisted_states (new_trace w (snd plain)) ∧
  invocations (new_trace w (snd streamed)) = invocations (new_trace w (snd plain)) ∧
  (fst plain = Ok r ↔ fst streamed = Ok tt) ∧
  (∀ e, fst plain = Raise e ↔ fst streamed = Raise e).
Proof.
  intros Hs plain streamed. subst plain streamed.
  send_paths env self w tid params r tk Hs.
  - rewrite (stream_answered env self w tid params r tk h resp Hs Hh Hresp Hu).
    cbn [snd fst objs _tasks clock_reads].
    erewrite !new_trace_app by reflexivity.
    repeat split; intros; try reflexivity; discriminate.
  - rewrite (stream_soured env self w tid params r tk h resp f e' Hs Hh Hresp Hu Hf).
    cbn [snd fst objs _tasks clock_reads].
    erewrite !new_trace_app by reflexivity.
    repeat split; intros; try reflexivity; try discriminate;
      match goal with H : Raise _ = Raise _ |- _ => injection H as <-; reflexivity end.
  - rewrite (stream_broken env self w tid params r tk h e Hs Hh Hresp).
    cbn [snd fst objs _tasks clock_reads].
    erewrite !new_trace_app by reflexivity.
    repeat split; intros; try reflexivity; try discriminate;
      match goal with H : Raise _ = Raise _ |- _ => injection H as <-; reflexivity end.
  - rewrite (stream_no_handler env self w tid params r tk Hs Hh).
    cbn [snd fst objs _tasks clock_reads].
    erewrite !new_trace_app by reflexivity.
    repeat split; intros; try reflexivity; discriminate.
Qed.

Lemma stream_agrees_with_send_witness :
  objs (snd (TaskManager.send_task_message_stream sample_env
               (manager (Some failing_handler)) "t1" (send_params "hi")
               (world_with (sample_task "t1" SUBMITTED None))))
  = objs (snd (TaskManager.send_task_message sample_env
                 (manager (Some failing_handler)) "t1" (send_params "hi")
                 (world_with (sample_task "t1" SUBMITTED None)))).
Proof.
  destruct (stream_agrees_with_send sample_env (manager (Some failing_handler))
              (send_params "hi") (world_with (sample_task "t1" SUBMITTED None))
              "t1" 0%nat (sample_task "t1" SUBMITTED None)) as (H & _).
  - repeat split.
  - exact H.
Defined.

(** ** Callbacks that raise *)

(** X11. A raising [on_task_updated] callback is treated like a failing
    handler: it is called inside the [try], after the task was written
    COMPLETED, so [create_task] and [send_task_message] then write the task
    FAILED and raise [InternalErrorException] with the callback's message,
    although the handler returned; the response stays in the history. *)
Theorem updated_callback_failure env self params (w : World) h resp f e :
  TaskManager.on_message_received self = Some h →
  h (sp_message params) = Returns resp →
  TaskManager.on_task_updated self = Some f →
  (_tasks w !! uuid4 env (uuid_draws w) = None →
   hook_returns (TaskManager.on_task_created self) (submitted env w params) →
   f (finished env w params resp) = Raises e →
   ∃ w' r tk,
     TaskManager.create_task env self params w =
       (Raise (InternalErrorException ("Error processing task: " +:+ str e)), w') ∧
     stored w' (uuid4 env (uuid_draws w)) r tk ∧
     state (status tk) = FAILED ∧
     history tk = Some [sp_message params; resp] ∧
     persisted_states (new_trace w w') = [SUBMITTED; WORKING; COMPLETED; FAILED]) ∧
  (∀ tid r tk,
     stored w tid r tk →
     f (answered env w (sp_message params) resp tk) = Raises e →
     ∃ w' tk',
       TaskManager.send_task_message env self tid params w =
         (Raise (InternalErrorException ("Error processing task message: " +:+ str e)), w') ∧
       stored w' tid r tk' ∧
       state (status tk') = FAILED ∧
       history tk' = Some ((default [] (history tk) ++ [sp_message params]) ++ [resp]) ∧
       persisted_states (new_trace w w') = [WORKING; COMPLETED; FAILED]).
Proof.
  intros Hh Hresp Hu. split.
  - intros Hfresh Hc Hf.
    rewrite (create_task_spoiled env self params w h resp f e Hfresh Hc Hh Hresp Hu Hf).
    eexists _, _, (spoiled env w params resp).
    split; [reflexivity|].
    split; [apply (stored_new w (spoiled env w params resp))|].
    split; [reflexivity|]. split; [reflexivity|].
    erewrite new_trace_app by reflexivity. reflexivity.
  - intros tid r tk Hs Hf. pose proof Hs as (_ & _ & Hid).
    rewrite (send_task_message_soured env self w tid params r tk h resp f e Hs Hh Hresp Hu Hf).
    eexists _, (soured env w (sp_message params) resp tk).
    split; [reflexivity|].
    split; [eapply stored_after; [exact Hs | exact Hid]|].
    split; [reflexivity|]. split; [reflexivity|].
    erewrite new_trace_app by reflexivity. reflexivity.
Qed.

Lemma updated_callback_failure_witness :
  ∃ w' tk',
    TaskManager.send_task_message sample_env raising_update_manager "t1"
      (send_params "hi") (world_with (sample_task "t1" SUBMITTED None)) =
      (Raise (InternalErrorException "Error processing task message: boom"), w') ∧
    stored w' "t1" 0%nat tk' ∧
    state (status tk') = FAILED.
Proof.
  destruct (updated_callback_failure sample_env raising_update_manager (send_params "hi")
              (world_with (sample_task "t1" SUBMITTED None)) echo_handler
              (text_message AGENT "Echo: hi") failing_hook (Exception "boom")
              eq_refl eq_refl eq_refl) as [_ H].
  destruct (H "t1" 0%nat (sample_task "t1" SUBMITTED None)) as (w' & tk' & H1 & H2 & H3 & _).
  - repeat split.
  - reflexivity.
  - exists w', tk'. split; [exact H1|]. split; [exact H2 | exact H3].
Defined.

(** X12. With a raising [on_task_updated] callback the stream carries two
    final items: the COMPLETED one, already yielded when the callback is
    called, and the FAILED one of the [except] block; the iteration then
    raises [InternalErrorException]. *)
Theorem stream_with_failing_callback env self params (w : World) tid r tk h resp f e :
  stored w tid r tk →
  TaskManager.on_message_received self = Some h →
  h (sp_message params) = Returns resp →
  TaskManager.on_task_updated self = Some f →
  f (answered env w (sp_message params) resp tk) = Raises e →
  ∃ w',
    TaskManager.send_task_message_stream env self tid params w =
      (Raise (InternalErrorException ("Error processing task message: " +:+ str e)), w') ∧
    emitted (new_trace w w') =
      [TaskManager.status_event tid (working env (clock_reads w)) false;
       TaskManager.status_event tid (completed env (S (clock_reads w)) resp) true;
       TaskManager.status_event tid (failed env (S (S (clock_reads w)))) true] ∧
    length (List.filter is_final (emitted (new_trace w w'))) = 2%nat ∧
    ¬ one_final_last (emitted (new_trace w w')).
Proof.
  intros Hs Hh Hresp Hu Hf.
  rewrite (stream_soured env self w tid params r tk h resp f e Hs Hh Hresp Hu Hf).
  eexists. split; [reflexivity|].
  erewrite new_trace_app by reflexivity.
  split; [reflexivity|]. split; [reflexivity|].
  intros [H _]. discriminate H.
Qed.

Lemma stream_with_failing_callback_witness :
  ∃ w',
    TaskManager.send_task_message_stream sample_env raising_update_manager "t1"
      (send_params "hi") (world_with (sample_task "t1" SUBMITTED None)) =
      (Raise (InternalErrorException "Error processing task message: boom"), w') ∧
    length (List.filter is_final
              (emitted (new_trace (world_with (sample_task "t1" SUBMITTED None)) w')))
      = 2%nat.
Proof.
  destruct (stream_with_failing_callback sample_env raising_update_manager
              (send_params "hi") (world_with (sample_task "t1" SUBMITTED None))
              "t1" 0%nat (sample_task "t1" SUBMITTED None) echo_handler
              (text_message AGENT "Echo: hi") failing_hook (Exception "boom"))
    as (w' & H1 & _ & H3 & _).
  - repeat split.
  - reflexivity.
  - reflexivity.
  - reflexivity.
  - reflexivity.
  - exists w'. split; [exact H1 | exact H3].
Defined.

(** X13. [on_task_created] and [on_task_canceled] are called outside any
    [try], after the store was written: when one of them raises, the call
    raises that very exception (not an [InternalErrorException]), and the
    task stays stored as it was written, SUBMITTED with no handler call in
    the first case, CANCELED in the second. *)
Theorem notification_failure_escapes env self (w : World) f e :
  (∀ params,
     _tasks w !! uuid4 env (uuid_draws w) = None →
     TaskManager.on_task_created self = Some f →
     f (submitted env w params) = Raises e →
     ∃ w' r,
       TaskManager.create_task env self params w = (Raise e, w') ∧
       stored w' (uuid4 env (uuid_draws w)) r (submitted env w params) ∧
       persisted_states (new_trace w w') = [SUBMITTED] ∧
       invocations (new_trace w w') = []) ∧
  (∀ tid r tk,
     stored w tid r tk →
     is_terminal (state (status tk)) = false →
     TaskManager.on_task_canceled self = Some f →
     f (canceled env w tk) = Raises e →
     ∃ w',
       TaskManager.cancel_task env self tid w = (Raise e, w') ∧
       stored w' tid r (canceled env w tk) ∧
       persisted_states (new_trace w w') = [CANCELED]).
Proof.
  split.
  - intros params Hfresh Hc Hf.
    rewrite (create_task_unannounced env self params w f e Hfresh Hc Hf).
    eexists _, _. split; [reflexivity|].
    split; [apply (stored_new w (submitted env w params))|].
    erewrite new_trace_app by reflexivity. split; reflexivity.
  - intros tid r tk Hs Ht Hc Hf. pose proof Hs as (_ & _ & Hid).
    rewrite (cancel_task_run env self w tid r tk Hs Ht), Hc, Hf.
    eexists. split; [reflexivity|].
    split; [eapply stored_after; [exact Hs | exact Hid]|].
    erewrite new_trace_app by reflexivity. reflexivity.
Qed.

Lemma notification_failure_escapes_witness :
  ∃ w',
    TaskManager.cancel_task sample_env raising_cancel_manager "t1"
      (world_with (sample_task "t1" WORKING None)) = (Raise (Exception "boom"), w') ∧
    stored w' "t1" 0%nat
      (canceled sample_env (world_with (sample_task "t1" WORKING None))
         (sample_task "t1" WORKING None)).
Proof.
  destruct (notification_failure_escapes sample_env raising_cancel_manager
              (world_with (sample_task "t1" WORKING None)) failing_hook (Exception "boom"))
    as [_ H].
  destruct (H "t1" 0%nat (sample_task "t1" WORKING None)) as (w' & H1 & H2 & _).
  - repeat split.
  - reflexivity.
  - reflexivity.
  - reflexivity.
  - exists w'. split; [exact H1 | exact H2].
Defined.

(** ** Creating a task: collisions, and what can follow *)

(** X14. When the drawn id is already in the store, [create_task] raises
    the store's [ValueError] as it is; the handler is not called, nothing
    is written, and the task stored under that id is untouched. *)
Theorem create_task_collision env self params (w : World) r0 tk0 :
  stored w (uuid4 env (uuid_draws w)) r0 tk0 →
  ∃ w',
    TaskManager.create_task env self params w =
      (Raise (ValueError ("Task with ID " +:+ uuid4 env (uuid_draws w)
                          +:+ " already exists")), w') ∧
    stored w' (uuid4 env (uuid_draws w)) r0 tk0 ∧
    _tasks w' = _tasks w ∧
    new_trace w w' = [].
Proof.
  intros (Hd & Ho & Hid).
  rewrite (create_task_duplicate env self params w r0 Hd).
  eexists. split; [reflexivity|]. split; [|split].
  - split; [exact Hd|]. split; [|exact Hid].
    cbn. rewrite lookup_app_l by (eapply lookup_lt_Some, Ho). exact Ho.
  - reflexivity.
  - unfold new_trace. cbn. apply drop_all.
Qed.

Lemma create_task_collision_witness :
  ∃ w',
    TaskManager.create_task sample_env (manager (Some echo_handler)) (send_params "hi")
      (world_with (sample_task "task-0" WORKING None)) =
      (Raise (ValueError "Task with ID task-0 already exists"), w') ∧
    stored w' "task-0" 0%nat (sample_task "task-0" WORKING None).
Proof.
  destruct (create_task_collision sample_env (manager (Some echo_handler))
              (send_params "hi") (world_with (sample_task "task-0" WORKING None))
              0%nat (sample_task "task-0" WORKING None)) as (w' & H1 & H2 & _).
  - repeat split.
  - exists w'. split; [exact H1 | exact H2].
Defined.

(** X15. With a message handler set, a task that [create_task] has
    processed can never be cancelled: whether the handler returned or
    raised, and whatever [on_task_updated] did, the task is left COMPLETED or
    FAILED, and [cancel_task] on its id raises
    [TaskNotCancelableException]. *)
Theorem created_task_is_not_cancelable env self params (w : World) h :
  TaskManager.on_message_received self = Some h →
  _tasks w !! uuid4 env (uuid_draws w) = None →
  hook_returns (TaskManager.on_task_created self) (submitted env w params) →
  let w' := snd (TaskManager.create_task env self params w) in
  (∃ r tk, stored w' (uuid4 env (uuid_draws w)) r tk ∧
           (state (status tk) = COMPLETED ∨ state (status tk) = FAILED)) ∧
  TaskManager.cancel_task env self (uuid4 env (uuid_draws w)) w' =
    (Raise (TaskNotCancelableException (uuid4 env (uuid_draws w))), w').
Proof.
  intros Hh Hfresh Hc w'. subst w'.
  assert (Hgen : ∀ x c u tr,
             is_terminal (state (status x)) = true →
             task_id x = uuid4 env (uuid_draws w) →
             TaskManager.cancel_task env self (uuid4 env (uuid_draws w))
               {| objs := objs w ++ [x];
                  _tasks := <[uuid4 env (uuid_draws w) := length (objs w)]> (_tasks w);
                  clock_reads := c; uuid_draws := u; trace := tr |}
             = (Raise (TaskNotCancelableException (uuid4 env (uuid_draws w))),
                {| objs := objs w ++ [x];
                   _tasks := <[uuid4 env (uuid_draws w) := length (objs w)]> (_tasks w);
                   clock_reads := c; uuid_draws := u; trace := tr |})).
  { intros x c u tr Ht Hid.
    eapply cancel_task_terminal; [apply lookup_insert_eq | apply lookup_last | exact Ht]. }
  destruct (h (sp_message params)) as [resp|e] eqn:Hresp.
  - destruct (hook_cases (TaskManager.on_task_updated self) (finished env w params resp))
      as [Hu | (f & e' & Hu & Hf)].
    + rewrite (create_task_answered env self params w h resp Hfresh Hc Hh Hresp Hu).
      cbn [snd]. split; [|apply Hgen; reflexivity].
      eexists _, _. split; [apply (stored_new w (finished env w params resp))|].
      left. reflexivity.
    + rewrite (create_task_spoiled env self params w h resp f e' Hfresh Hc Hh Hresp Hu Hf).
      cbn [snd]. split; [|apply Hgen; reflexivity].
      eexists _, _. split; [apply (stored_new w (spoiled env w params resp))|].
      right. reflexivity.
  - rewrite (create_task_broken env self params w h e Hfresh Hc Hh Hresp).
    cbn [snd]. split; [|apply Hgen; reflexivity].
    eexists _, _. split; [apply (stored_new w (crashed env w params))|].
    right. reflexivity.
Qed.

Lemma created_task_is_not_cancelable_witness :
  TaskManager.cancel_task sample_env (manager (Some echo_handler)) "task-0"
    (snd (TaskManager.create_task sample_env (manager (Some echo_handler))
            (send_params "hi") empty_world))
  = (Raise (TaskNotCancelableException "task-0"),
     snd (TaskManager.create_task sample_env (manager (Some echo_handler))
            (send_params "hi") empty_world)).
Proof.
  destruct (created_task_is_not_cancelable sample_env (manager (Some echo_handler))
              (send_params "hi") empty_world echo_handler eq_refl eq_refl I) as [_ H].
  exact H.
Defined.

(** X16. A conversation: after [create_task] with a message and
    [send_task_message] with a second one, both answered by the handler
    (the notification callbacks returning), the task is COMPLETED, its
    status carries the second response, and its history is the four
    messages in the order they arrived. *)
Theorem follow_up_message env self p1 p2 (w : World) h r1 r2 :
  TaskManager.on_message_received self = Some h →
  h (sp_message p1) = Returns r1 →
  h (sp_message p2) = Returns r2 →
  _tasks w !! uuid4 env (uuid_draws w) = None →
  quiet (TaskManager.on_task_created self) →
  quiet (TaskManager.on_task_updated self) →
  ∃ r w1 w2 tk,
    TaskManager.create_task env self p1 w = (Ok r, w1) ∧
    TaskManager.send_task_message env self (uuid4 env (uuid_draws w)) p2 w1 = (Ok r, w2) ∧
    stored w2 (uuid4 env (uuid_draws w)) r tk ∧
    state (status tk) = COMPLETED ∧
    message (status tk) = Some r2 ∧
    history tk = Some [sp_message p1; r1; sp_message p2; r2] ∧
    invocations (new_trace w w2) = [sp_message p1; sp_message p2].
Proof.
  intros Hh H1 H2 Hfresh Hc Hu.
  rewrite (create_task_answered env self p1 w h r1 Hfresh (Hc _) Hh H1 (Hu _)).
  eexists _, _, _, _. split; [reflexivity|].
  pose proof (stored_new w (finished env w p1 r1) (S (S (S (clock_reads w))))
                (S (uuid_draws w))
                (trace w ++ [Persisted CREATE (submitted env w p1);
                             Persisted UPDATE (started env w p1);
                             Invoked (sp_message p1);
                             Persisted UPDATE (finished env w p1 r1)])) as Hs.
  split.
  { apply (send_task_message_answered env self _ _ p2 _ _ h r2 Hs Hh H2 (Hu _)). }
  split; [eapply stored_after; [exact Hs | reflexivity]|].
  split; [reflexivity|]. split; [reflexivity|]. split; [reflexivity|].
  unfold new_trace. cbn [trace]. rewrite <- app_assoc, drop_app_length. reflexivity.
Qed.

Lemma follow_up_message_witness :
  ∃ r w1 w2 tk,
    TaskManager.create_task sample_env (manager (Some echo_handler)) (send_params "hi")
      empty_world = (Ok r, w1) ∧
    TaskManager.send_task_message sample_env (manager (Some echo_handler)) "task-0"
      (send_params "more") w1 = (Ok r, w2) ∧
    stored w2 "task-0" r tk ∧
    history tk =
      Some [text_message USER "hi"; text_message AGENT "Echo: hi";
            text_message USER "more"; text_message AGENT "Echo: more"].
Proof.
  destruct (follow_up_message sample_env (manager (Some echo_handler))
              (send_params "hi") (send_params "more") empty_world echo_handler
              (text_message AGENT "Echo: hi") (text_message AGENT "Echo: more")
              eq_refl eq_refl eq_refl eq_refl (λ _, I) (λ _, I))
    as (r & w1 & w2 & tk & H1 & H2 & H3 & _ & _ & H6 & _).
  exists r, w1, w2, tk. split; [exact H1|]. split; [exact H2|]. split; [exact H3 | exact H6].
Defined.

(** X17. After a successful [cancel_task], [resubscribe_task] yields the
    single item of the CANCELED status, marked final. *)
Theorem resubscribe_after_cancel env self (w : World) tid r tk :
  stored w tid r tk →
  is_terminal (state (status tk)) = false →
  hook_returns (TaskManager.on_task_canceled self) (canceled env w tk) →
  ∃ w1 w2,
    TaskManager.cancel_task env self tid w = (Ok r, w1) ∧
    TaskManager.resubscribe_task tid w1 = (Ok tt, w2) ∧
    emitted (new_trace w1 w2) =
      [TaskManager.status_event tid
         {| state := CANCELED; message := None;
            timestamp := utcnow env (clock_reads w) |} true].
Proof.
  intros Hs Ht Hh. pose proof Hs as (Hd & Ho & Hid).
  rewrite (cancel_task_run env self w tid r tk Hs Ht).
  assert (Hr : match TaskManager.on_task_canceled self with
               | Some f => match f (canceled env w tk) with
                           | Returns _ => Ok r
                           | Raises e => Raise e
                           end
               | None => Ok r
               end = Ok r).
  { unfold hook_returns in Hh. destruct (TaskManager.on_task_canceled self); [|reflexivity].
    rewrite Hh. reflexivity. }
  rewrite Hr. eexists _, _. split; [reflexivity|].
  erewrite resubscribe_task_run;
    [ | exact Hd | cbn; apply list_lookup_insert_eq; eapply lookup_lt_Some, Ho ].
  split; [reflexivity|].
  erewrite new_trace_app by reflexivity. reflexivity.
Qed.

Lemma resubscribe_after_cancel_witness :
  ∃ w1 w2,
    TaskManager.cancel_task sample_env (manager None) "t1"
      (world_with (sample_task "t1" WORKING None)) = (Ok 0%nat, w1) ∧
    TaskManager.resubscribe_task "t1" w1 = (Ok tt, w2) ∧
    is_final <$> emitted (new_trace w1 w2) = [true].
Proof.
  destruct (resubscribe_after_cancel sample_env (manager None)
              (world_with (sample_task "t1" WORKING None)) "t1" 0%nat
              (sample_task "t1" WORKING None)) as (w1 & w2 & H1 & H2 & H3).
  - repeat split.
  - reflexivity.
  - exact I.
  - exists w1, w2. split; [exact H1|]. split; [exact H2|]. rewrite H3. reflexivity.
Defined.

(** ** Stateless calls *)

(** X18. [process_message] hands the message to the handler once and
    returns its response; when the handler raises [e] it raises
    [InternalErrorException] ("Error processing message: " + str(e), code
    -32603).  Either way no task is created or changed: task objects, store
    and clock are as before. *)
Theorem process_message_is_stateless self m (w : World) h :
  TaskManager.on_message_received self = Some h →
  let run := TaskManager.process_message self m w in
  fst run = match h m with
            | Returns resp => Ok resp
            | Raises e =>
                Raise (InternalErrorException ("Error processing message: " +:+ str e))
            end ∧
  (∀ e, fst run = Raise e → code e = Some (-32603)) ∧
  new_trace w (snd run) = [Invoked m] ∧
  objs (snd run) = objs w ∧
  _tasks (snd run) = _tasks w ∧
  clock_reads (snd run) = clock_reads w ∧
  uuid_draws (snd run) = uuid_draws w.
Proof.
  intros Hh run. subst run. unfold TaskManager.process_message. rewrite Hh.
  unfold try_except, TaskManager.invoke, bind, log, call, raise.
  destruct (h m) as [resp|e]; cbn [fst snd objs _tasks clock_reads uuid_draws].
  - split; [reflexivity|]. split; [intros e H; discriminate H|].
    split; [apply new_trace_app; reflexivity|]. repeat split.
  - split; [reflexivity|]. split; [intros e0 [= <-]; reflexivity|].
    split; [apply new_trace_app; reflexivity|]. repeat split.
Qed.

Lemma process_message_is_stateless_witness :
  fst (TaskManager.process_message (manager (Some echo_handler))
         (text_message USER "Hello") empty_world)
  = Ok (text_message AGENT "Echo: Hello").
Proof.
  destruct (process_message_is_stateless (manager (Some echo_handler))
              (text_message USER "Hello") empty_world echo_handler eq_refl) as [H _].
  exact H.
Defined.

(** X19. [get_agent_card] returns what the card callback returns for the
    url; it raises [InternalErrorException] when no callback is set ("No
    agent card handler registered") and when the callback raises ("Error
    getting agent card: " + str(e)); the world is never changed. *)
Theorem get_agent_card_spec (query : option (string → Outcome AgentCard)) url (w : World) :
  TaskManager.get_agent_card query url w =
    (match query with
     | None => Raise (InternalErrorException "No agent card handler registered")
     | Some q =>
         match q url with
         | Returns card => Ok card
         | Raises e =>
             Raise (InternalErrorException ("Error getting agent card: " +:+ str e))
         end
     end, w) ∧
  (∀ e, fst (TaskManager.get_agent_card query url w) = Raise e →
        code e = Some (-32603) ∧
        fastapi.status_code (fastapi.handle_a2a_exception (Engine e)) = 500).
Proof.
  assert (H : TaskManager.get_agent_card query url w =
    (match query with
     | None => Raise (InternalErrorException "No agent card handler registered")
     | Some q =>
         match q url with
         | Returns card => Ok card
         | Raises e =>
             Raise (InternalErrorException ("Error getting agent card: " +:+ str e))
         end
     end, w)).
  { unfold TaskManager.get_agent_card. destruct query as [q|]; [|reflexivity].
    unfold try_except, call, raise. destruct (q url); reflexivity. }
  split; [exact H|].
  intros e. rewrite H. cbn [fst].
  destruct query as [q|]; [destruct (q url)|]; intros [= <-]; split; reflexivity.
Qed.

(** ** Reading a task: limits below one, repeated reads *)

Lemma slice_from_positive {A} (k : Z) (l : list A) :
  1 ≤ k → slice_from k l = drop (Z.to_nat (Z.min k (Z.of_nat (length l)))) l.
Proof.
  intros Hk. unfold slice_from.
  destruct (Z.ltb_spec k 0) as [Hlt|_]; [lia | reflexivity].
Qed.

(** X20. A negative [history_length] does not limit the history but cuts
    its beginning: [get_task] with [history_length = -k], [k >= 1], on a
    stored task with a non-empty history of n entries leaves (in the store
    too) the entries after the first min(k, n), so none at all when
    [k >= n]. *)
Theorem get_task_negative_limit (w : World) params r tk (l : list Message) (k : Z) :
  _tasks w !! q_id params = Some r →
  objs w !! r = Some tk →
  history tk = Some l →
  l ≠ [] →
  history_length params = Some (- k) →
  1 ≤ k →
  ∃ w' tk',
    TaskManager.get_task params w = (Ok r, w') ∧
    objs w' !! r = Some tk' ∧
    history tk' = Some (drop (Z.to_nat (Z.min k (Z.of_nat (length l)))) l) ∧
    Z.of_nat (length (drop (Z.to_nat (Z.min k (Z.of_nat (length l)))) l))
      = Z.of_nat (length l) - Z.min k (Z.of_nat (length l)).
Proof.
  intros Hd Ho Hh Hne Hn Hk.
  assert (Hlt : (r < length (objs w))%nat) by (eapply lookup_lt_Some, Ho).
  rewrite (get_task_run w params r tk Hd Ho), Hh, Hn.
  destruct l as [|m l]; [congruence|].
  eexists _, _. split; [reflexivity|].
  split; [cbn; apply list_lookup_insert_eq, Hlt|].
  cbn [history with_history]. rewrite Z.opp_involutive, (slice_from_positive k _ Hk).
  split; [reflexivity|].
  rewrite length_drop. lia.
Qed.

Lemma get_task_negative_limit_witness :
  ∃ w' tk',
    TaskManager.get_task (query "t1" (Some (-1))) (world_with two_entries) = (Ok 0%nat, w') ∧
    objs w' !! 0%nat = Some tk' ∧
    history tk' = Some [text_message AGENT "second"].
Proof.
  destruct (get_task_negative_limit (world_with two_entries) (query "t1" (Some (-1)))
              0%nat two_entries
              [text_message USER "first"; text_message AGENT "second"] 1)
    as (w' & tk' & H1 & H2 & H3 & _).
  - reflexivity.
  - reflexivity.
  - reflexivity.
  - discriminate.
  - reflexivity.
  - lia.
  - exists w', tk'. split; [exact H1|]. split; [exact H2 | exact H3].
Defined.

Lemma slice_from_again {A} (n : Z) (l : list A) :
  0 ≤ n → slice_from (- n) (slice_from (- n) l) = slice_from (- n) l.
Proof.
  intros Hn. destruct (decide (n = 0)) as [->|Hne].
  - rewrite !slice_from_zero. reflexivity.
  - rewrite (slice_from_last n l) by lia.
    rewrite slice_from_last by lia.
    rewrite length_last_n by lia.
    unfold last_n at 1. rewrite length_last_n by lia.
    replace (Z.to_nat (Z.min n (Z.of_nat (length l))) -
             Z.to_nat (Z.min n (Z.of_nat (Z.to_nat (Z.min n (Z.of_nat (length l)))))))%nat
      with 0%nat by lia.
    reflexivity.
Qed.

(** X21. [get_task] without [history_length] is a pure read: it returns the
    stored object and changes nothing.  With a limit [n >= 0] it changes
    the stored task at most once: a second call with the same parameters
    finds the world as the first one left it. *)
Theorem get_task_repeated (w : World) params r tk :
  _tasks w !! q_id params = Some r →
  objs w !! r = Some tk →
  (history_length params = None → TaskManager.get_task params w = (Ok r, w)) ∧
  (∀ n, history_length params = Some n → 0 ≤ n →
     ∃ w1,
       TaskManager.get_task params w = (Ok r, w1) ∧
       TaskManager.get_task params w1 = (Ok r, w1)).
Proof.
  intros Hd Ho.
  assert (Hlt : (r < length (objs w))%nat) by (eapply lookup_lt_Some, Ho).
  split.
  - intros Hn. rewrite (get_task_run w params r tk Hd Ho), Hn. reflexivity.
  - intros n Hn Hpos.
    rewrite (get_task_run w params r tk Hd Ho), Hn.
    destruct (history tk) as [[|m l]|] eqn:Hh.
    + exists w. split; [reflexivity|].
      rewrite (get_task_run w params r tk Hd Ho), Hn, Hh. reflexivity.
    + eexists. split; [reflexivity|].
      erewrite get_task_run;
        [ | exact Hd | cbn; apply list_lookup_insert_eq, Hlt ].
      rewrite Hn. cbn [history with_history].
      destruct (slice_from (- n) (m :: l)) as [|m' l'] eqn:Hsl; [reflexivity|].
      rewrite <- Hsl, slice_from_again by exact Hpos.
      cbn [set_objs objs _tasks clock_reads uuid_draws trace].
      rewrite list_insert_insert_eq. reflexivity.
    + exists w. split; [reflexivity|].
      rewrite (get_task_run w params r tk Hd Ho), Hn, Hh. reflexivity.
Qed.

Lemma get_task_repeated_witness :
  ∃ w1,
    TaskManager.get_task (query "t1" (Some 1)) (world_with two_entries) = (Ok 0%nat, w1) ∧
    TaskManager.get_task (query "t1" (Some 1)) w1 = (Ok 0%nat, w1).
Proof.
  destruct (get_task_repeated (world_with two_entries) (query "t1" (Some 1))
              0%nat two_entries eq_refl eq_refl) as [_ H].
  destruct (H 1 eq_refl) as (w1 & H1 & H2); [lia|].
  exists w1. split; [exact H1 | exact H2].
Defined.

(** ** The HTTP side *)

(** X22. For an exception of a class with a code of its own (not a direct
    instance of the three base classes), [handle_a2a_exception] answers
    404 exactly for code -32001, 400 exactly for codes -32002 and -32600,
    and 500 otherwise; the detail is the exception's message, except for
    exceptions that are no [A2AException], whose message is replaced by
    "Internal server error". *)
Theorem http_status_by_code (e : PyException) :
  own_class e = true →
  (fastapi.status_code (fastapi.handle_a2a_exception e) = 404
   ↔ py_code e = Some (-32001)) ∧
  (fastapi.status_code (fastapi.handle_a2a_exception e) = 400
   ↔ py_code e = Some (-32002) ∨ py_code e = Some (-32600)) ∧
  (fastapi.status_code (fastapi.handle_a2a_exception e) = 404 ∨
   fastapi.status_code (fastapi.handle_a2a_exception e) = 400 ∨
   fastapi.status_code (fastapi.handle_a2a_exception e) = 500) ∧
  fastapi.detail (fastapi.handle_a2a_exception e) =
    (if is_a2a e then py_str e else "Internal server error") ∧
  (is_a2a e = false → py_code e = None).
Proof.
  intros Hown.
  destruct e as [[m|m|tid|tid|m|m]|m c d|m c d|m c d| |op|m|m|m]; try discriminate Hown;
    cbn; (split; [split; intros H; try discriminate H; reflexivity|]);
    (split; [split; [intros H; try discriminate H; auto
                    | intros [H|H]; try discriminate H; reflexivity]|]);
    (split; [auto|]); split; try reflexivity; intros H; try discriminate H; reflexivity.
Qed.

Lemma http_status_by_code_witness :
  fastapi.status_code (fastapi.handle_a2a_exception (Engine (TaskNotFoundException "t9")))
    = 404 ∧
  fastapi.detail (fastapi.handle_a2a_exception (Engine (TaskNotFoundException "t9")))
    = "Task not found: t9".
Proof.
  destruct (http_status_by_code (Engine (TaskNotFoundException "t9")) eq_refl)
    as (H1 & _ & _ & H4 & _).
  split; [apply H1; reflexivity | exact H4].
Defined.

Lemma respond_ok (body : M ref) (w w1 : World) r tk :
  body w = (Ok r, w1) → objs w1 !! r = Some tk →
  fastapi.respond body w = (Ok (fastapi.Returned tk), w1).
Proof.
  intros Hb Ho. unfold fastapi.respond. apply try_ok.
  rewrite (bind_ok _ _ _ _ _ Hb), (bind_ok _ _ _ _ _ (deref_run _ _ _ Ho)). reflexivity.
Qed.

Lemma respond_raise (body : M ref) (w w1 : World) e :
  body w = (Raise e, w1) →
  fastapi.respond body w =
    (Ok (fastapi.Refused (fastapi.handle_a2a_exception (Engine e))), w1).
Proof.
  intros Hb. unfold fastapi.respond.
  erewrite try_raise; [reflexivity|]. apply bind_raise, Hb.
Qed.

(** X23. The cancel route answers 404 "Task not found: <id>" for an id the
    store does not hold and 400 "Task cannot be canceled: <id>" for a
    stored task in a terminal state, changing nothing in either case; for
    another stored task it answers the task as CANCELED (the
    [on_task_canceled] callback returning). *)
Theorem cancel_route_answers env self (w : World) tid :
  (_tasks w !! tid = None →
   fastapi.cancel_task env self tid w =
     (Ok (fastapi.Refused {| fastapi.status_code := 404;
                             fastapi.detail := "Task not found: " +:+ tid |}), w)) ∧
  (∀ r tk,
     stored w tid r tk →
     (is_terminal (state (status tk)) = true →
      fastapi.cancel_task env self tid w =
        (Ok (fastapi.Refused {| fastapi.status_code := 400;
                                fastapi.detail := "Task cannot be canceled: " +:+ tid |}), w)) ∧
     (is_terminal (state (status tk)) = false →
      hook_returns (TaskManager.on_task_canceled self) (canceled env w tk) →
      ∃ w',
        fastapi.cancel_task env self tid w =
          (Ok (fastapi.Returned (canceled env w tk)), w') ∧
        stored w' tid r (canceled env w tk))).
Proof.
  split.
  - intros Hd. destruct (absent_run env self w tid Hd) as (_ & _ & _ & H & _).
    unfold fastapi.cancel_task. rewrite (respond_raise _ _ _ _ H). reflexivity.
  - intros r tk Hs. pose proof Hs as (Hd & Ho & Hid). split.
    + intros Ht. unfold fastapi.cancel_task.
      rewrite (respond_raise _ _ _ _ (cancel_task_terminal env self w tid r tk Hd Ho Ht)).
      reflexivity.
    + intros Ht Hh. unfold fastapi.cancel_task.
      assert (Hrun := cancel_task_run env self w tid r tk Hs Ht).
      assert (Hr : match TaskManager.on_task_canceled self with
                   | Some f => match f (canceled env w tk) with
                               | Returns _ => Ok r
                               | Raises e => Raise e
                               end
                   | None => Ok r
                   end = Ok r).
      { unfold hook_returns in Hh.
        destruct (TaskManager.on_task_canceled self); [|reflexivity].
        rewrite Hh. reflexivity. }
      rewrite Hr in Hrun.
      eexists. split.
      * eapply respond_ok; [exact Hrun|].
        cbn. apply list_lookup_insert_eq. eapply lookup_lt_Some, Ho.
      * eapply stored_after; [exact Hs | exact Hid].
Qed.

Lemma cancel_route_answers_witness :
  fastapi.cancel_task sample_env (manager (Some echo_handler)) "t1"
    (world_with (sample_task "t1" COMPLETED None)) =
    (Ok (fastapi.Refused {| fastapi.status_code := 400;
                            fastapi.detail := "Task cannot be canceled: t1" |}),
     world_with (sample_task "t1" COMPLETED None)).
Proof.
  destruct (cancel_route_answers sample_env (manager (Some echo_handler))
              (world_with (sample_task "t1" COMPLETED None)) "t1") as [_ H].
  destruct (H 0%nat (sample_task "t1" COMPLETED None)) as [H1 _].
  - repeat split.
  - exact (H1 eq_refl).
Defined.

(** X24. The create route answers 500 with the message of the
    [InternalErrorException] when the handler raises, the task then being
    stored FAILED, and 500 "Internal server error", without the
    [ValueError]'s message, when the drawn id is already in use. *)
Theorem create_route_failures env self params (w : World) :
  (∀ h e,
     TaskManager.on_message_received self = Some h →
     h (sp_message params) = Raises e →
     _tasks w !! uuid4 env (uuid_draws w) = None →
     hook_returns (TaskManager.on_task_created self) (submitted env w params) →
     ∃ w' r,
       fastapi.create_task env self params w =
         (Ok (fastapi.Refused
                {| fastapi.status_code := 500;
                   fastapi.detail := "Error processing task: " +:+ str e |}), w') ∧
       stored w' (uuid4 env (uuid_draws w)) r (crashed env w params)) ∧
  (∀ r0,
     _tasks w !! uuid4 env (uuid_draws w) = Some r0 →
     ∃ w',
       fastapi.create_task env self params w =
         (Ok (fastapi.Refused {| fastapi.status_code := 500;
                                 fastapi.detail := "Internal server error" |}), w') ∧
       _tasks w' = _tasks w).
Proof.
  split.
  - intros h e Hh He Hfresh Hc. unfold fastapi.create_task.
    rewrite (respond_raise _ _ _ _ (create_task_broken env self params w h e Hfresh Hc Hh He)).
    eexists _, _. split; [reflexivity|].
    apply (stored_new w (crashed env w params)).
  - intros r0 Hdup. unfold fastapi.create_task.
    rewrite (respond_raise _ _ _ _ (create_task_duplicate env self params w r0 Hdup)).
    eexists. split; reflexivity.
Qed.

Lemma create_route_failures_witness :
  ∃ w',
    fastapi.create_task sample_env (manager (Some failing_handler)) (send_params "hi")
      empty_world =
      (Ok (fastapi.Refused {| fastapi.status_code := 500;
                              fastapi.detail := "Error processing task: boom" |}), w').
Proof.
  destruct (create_route_failures sample_env (manager (Some failing_handler))
              (send_params "hi") empty_world) as [H _].
  destruct (H failing_handler (Exception "boom") eq_refl eq_refl eq_refl I)
    as (w' & r & H1 & _).
  exists w'. exact H1.
Defined.

(** X25. The send route applies [historyLength] to the task object the
    manager returned, which is the stored one: when the handler answers
    (the [on_task_updated] callback returning), the task in the response is
    the task as the store now holds it, COMPLETED, its history being the
    slice [-historyLength:] of the full history, earlier entries having
    left the store as well. *)
Theorem send_route_truncates_the_store env self params (w : World) tid r tk h resp n :
  stored w tid r tk →
  TaskManager.on_message_received self = Some h →
  h (sp_message params) = Returns resp →
  hook_returns (TaskManager.on_task_updated self)
    (answered env w (sp_message params) resp tk) →
  ∃ w' tk',
    fastapi.send_task_message env self tid params (Some n) w =
      (Ok (fastapi.Returned tk'), w') ∧
    stored w' tid r tk' ∧
    state (status tk') = COMPLETED ∧
    history tk' =
      Some (slice_from (- n) ((default [] (history tk) ++ [sp_message params]) ++ [resp])).
Proof.
  intros Hs Hh Hresp Hu. pose proof Hs as (Hd & Ho & Hid).
  assert (Hlt : (r < length (objs w))%nat) by (eapply lookup_lt_Some, Ho).
  unfold fastapi.send_task_message.
  destruct ((default [] (history tk) ++ [sp_message params]) ++ [resp]) as [|m l] eqn:Hl.
  { exfalso. apply (f_equal length) in Hl. rewrite !length_app in Hl. cbn in Hl. lia. }
  eexists _, (with_history (Some (slice_from (- n) (m :: l)))
                (answered env w (sp_message params) resp tk)).
  split.
  - eapply respond_ok.
    + rewrite (bind_ok _ _ _ _ _
                 (send_task_message_answered env self w tid params r tk h resp Hs Hh Hresp Hu)).
      erewrite bind_ok; [| apply deref_run; cbn; apply list_lookup_insert_eq, Hlt ].
      cbn [history answered with_status with_history]. rewrite Hl.
      erewrite bind_ok; [reflexivity|].
      apply assign_run. cbn. apply list_lookup_insert_eq, Hlt.
    + cbn. rewrite list_insert_insert_eq. apply list_lookup_insert_eq, Hlt.
  - split.
    + split; [exact Hd|]. split; [|exact Hid].
      cbn. rewrite list_insert_insert_eq. apply list_lookup_insert_eq, Hlt.
    + split; reflexivity.
Qed.

Lemma send_route_truncates_the_store_witness :
  ∃ w' tk',
    fastapi.send_task_message sample_env (manager (Some echo_handler)) "t1"
      (send_params "more") (Some 1) (world_with two_entries) =
      (Ok (fastapi.Returned tk'), w') ∧
    stored w' "t1" 0%nat tk' ∧
    history tk' = Some [text_message AGENT "Echo: more"].
Proof.
  destruct (send_route_truncates_the_store sample_env (manager (Some echo_handler))
              (send_params "more") (world_with two_entries) "t1" 0%nat two_entries
              echo_handler (text_message AGENT "Echo: more") 1)
    as (w' & tk' & H1 & H2 & _ & H4).
  - repeat split.
  - reflexivity.
  - reflexivity.
  - exact I.
  - exists w', tk'. split; [exact H1|]. split; [exact H2 | exact H4].
Defined.

(** ** The stream, on every path *)

(** X26. Whatever the handler and the callbacks do, the stream of
    [send_task_message_stream] on a stored task starts with the WORKING
    item, not final, and has at most two more; every item is a
    "status_update" for the task's id; an item is final only if it
    carries COMPLETED or FAILED; and the last item carries the status the
    task is stored with when the stream ends. *)
Theorem stream_shape env self params (w : World) tid r tk :
  stored w tid r tk →
  let w' := snd (TaskManager.send_task_message_stream env self tid params w) in
  ∃ rest tk' e,
    emitted (new_trace w w') =
      TaskManager.status_event tid (working env (clock_reads w)) false :: rest ∧
    (length rest ≤ 2)%nat ∧
    Forall (λ e, type e = "status_update" ∧ ev_id (data e) = tid ∧
                 (is_final e = true →
                  state (ev_status (data e)) = COMPLETED ∨
                  state (ev_status (data e)) = FAILED))
           (emitted (new_trace w w')) ∧
    stored w' tid r tk' ∧
    last (emitted (new_trace w w')) = Some e ∧
    ev_status (data e) = status tk'.
Proof.
  intros Hs w'. subst w'. pose proof Hs as (_ & _ & Hid).
  stream_paths env self w tid params r tk Hs; cbn [snd];
    erewrite new_trace_app by reflexivity; cbn [emitted].
  - eexists _, (answered env w (sp_message params) resp tk), _.
    split; [reflexivity|]. split; [cbn; lia|].
    split; [repeat constructor; cbn; auto; discriminate|].
    split; [eapply stored_after; [exact Hs | exact Hid]|]. split; reflexivity.
  - eexists _, (soured env w (sp_message params) resp tk), _.
    split; [reflexivity|]. split; [cbn; lia|].
    split; [repeat constructor; cbn; auto; discriminate|].
    split; [eapply stored_after; [exact Hs | exact Hid]|]. split; reflexivity.
  - eexists _, (broken env w (sp_message params) tk), _.
    split; [reflexivity|]. split; [cbn; lia|].
    split; [repeat constructor; cbn; auto; discriminate|].
    split; [eapply stored_after; [exact Hs | exact Hid]|]. split; reflexivity.
  - eexists _, (received env w (sp_message params) tk), _.
    split; [reflexivity|]. split; [cbn; lia|].
    split; [repeat constructor; cbn; auto; discriminate|].
    split; [eapply stored_after; [exact Hs | exact Hid]|]. split; reflexivity.
Qed.

Lemma stream_shape_witness :
  ∃ rest,
    emitted (new_trace (world_with (sample_task "t1" SUBMITTED None))
               (snd (TaskManager.send_task_message_stream sample_env
                       (manager (Some echo_handler)) "t1" (send_params "hi")
                       (world_with (sample_task "t1" SUBMITTED None))))) =
      TaskManager.status_event "t1" (working sample_env 0) false :: rest ∧
    (length rest ≤ 2)%nat.
Proof.
  destruct (stream_shape sample_env (manager (Some echo_handler)) (send_params "hi")
              (world_with (sample_task "t1" SUBMITTED None)) "t1" 0%nat
              (sample_task "t1" SUBMITTED None)) as (rest & _ & _ & H1 & H2 & _).
  - repeat split.
  - exists rest. split; [exact H1 | exact H2].
Defined.

(** X27. Without a message handler a created task stays WORKING and can
    therefore be cancelled: [create_task] followed by [cancel_task] on the
    new id returns the same task object, stored CANCELED with the inbound
    message as its whole history (the notification callbacks returning). *)
Theorem handlerless_task_can_be_cancelled env self params (w : World) :
  TaskManager.on_message_received self = None →
  _tasks w !! uuid4 env (uuid_draws w) = None →
  quiet (TaskManager.on_task_created self) →
  quiet (TaskManager.on_task_canceled self) →
  ∃ r w1 w2 tk,
    TaskManager.create_task env self params w = (Ok r, w1) ∧
    TaskManager.cancel_task env self (uuid4 env (uuid_draws w)) w1 = (Ok r, w2) ∧
    stored w2 (uuid4 env (uuid_draws w)) r tk ∧
    state (status tk) = CANCELED ∧
    history tk = Some [sp_message params] ∧
    persisted_states (new_trace w w2) = [SUBMITTED; WORKING; CANCELED].
Proof.
  intros Hh Hfresh Hc Hx.
  rewrite (create_task_no_handler env self params w Hfresh (Hc _) Hh).
  pose proof (stored_new w (started env w params) (S (S (clock_reads w)))
                (S (uuid_draws w))
                (trace w ++ [Persisted CREATE (submitted env w params);
                             Persisted UPDATE (started env w params)])) as Hs.
  change (task_id (started env w params)) with (uuid4 env (uuid_draws w)) in Hs.
  eexists _, _, _, _. split; [reflexivity|].
  split.
  { rewrite (cancel_task_run env self _ _ _ _ Hs eq_refl).
    assert (Hret := Hx (canceled env
                          {| objs := objs w ++ [started env w params];
                             _tasks := <[uuid4 env (uuid_draws w) :=
                                           length (objs w)]> (_tasks w);
                             clock_reads := S (S (clock_reads w));
                             uuid_draws := S (uuid_draws w);
                             trace := trace w ++
                               [Persisted CREATE (submitted env w params);
                                Persisted UPDATE (started env w params)] |}
                          (started env w params))).
    unfold hook_returns in Hret.
    destruct (TaskManager.on_task_canceled self) as [f|]; [rewrite Hret|]; reflexivity. }
  split; [eapply stored_after; [exact Hs | reflexivity]|].
  split; [reflexivity|]. split; [reflexivity|].
  unfold new_trace. cbn [trace]. rewrite <- app_assoc, drop_app_length. reflexivity.
Qed.

Lemma handlerless_task_can_be_cancelled_witness :
  ∃ r w1 w2 tk,
    TaskManager.create_task sample_env (manager None) (send_params "hi") empty_world
      = (Ok r, w1) ∧
    TaskManager.cancel_task sample_env (manager None) "task-0" w1 = (Ok r, w2) ∧
    stored w2 "task-0" r tk ∧
    state (status tk) = CANCELED.
Proof.
  destruct (handlerless_task_can_be_cancelled sample_env (manager None) (send_params "hi")
              empty_world eq_refl eq_refl (λ _, I) (λ _, I))
    as (r & w1 & w2 & tk & H1 & H2 & H3 & H4 & _).
  exists r, w1, w2, tk. split; [exact H1|]. split; [exact H2|]. split; [exact H3 | exact H4].
Defined.
